(** * Notes API: the four Lambda handlers over a DynamoDB table

    A shallow embedding of [create.py], [list.py], [update.py] and
    [delete.py].  Each handler is a function from the process environment,
    the invocation event and the table to an outcome (a response dictionary
    or an uncaught exception) and the table afterwards, together with the log
    of the table requests that were issued.

    Python values that reach the handlers are modelled by [pyval]; a Python
    [str] by its UTF-8 encoding (what a string literal of this file denotes);
    Python's exceptions by the error monad [pyres]; the DynamoDB table by a
    finite map from the composite key (owner, id) to the item's attributes.  The
    functions of the standard library whose results the handlers only pass
    along ([json.loads], [json.dumps], [str] on values that are not strings)
    are the fields of the class [PyLib]. *)

From stdpp Require Import gmap strings list fin_maps pretty sorting.
From Stdlib Require Import ZArith String Ascii.

Set Warnings "-register-all".

Open Scope string_scope.
Open Scope Z_scope.

(** ** Python values and exceptions *)

(** The values an event or a decoded JSON document is made of.  A float is
    kept as its 64-bit pattern: the handlers never compute with one. *)
Inductive pyval : Type :=
| PNone
| PBool (b : bool)
| PInt (n : Z)
| PFloat (bits : Z)
| PStr (s : string)
| PList (l : list pyval)
| PDict (d : list (string * pyval)).

(** The exceptions that can travel through a handler.  [JSONDecodeError] is a
    subclass of [ValueError] in Python; both carry the text of [str(exc)].
    [ClientError] carries [exc.response["Error"]["Code"]]. *)
Inductive exn : Type :=
| ValueError (msg : string)
| JSONDecodeError (msg : string)
| AttributeError
| TypeError
| ClientError (code : string)
| OtherError (name : string).

Inductive pyres (A : Type) : Type :=
| Ok (a : A)
| Raise (e : exn).
Arguments Ok {A} a.
Arguments Raise {A} e.

Definition bind {A B : Type} (c : pyres A) (k : A -> pyres B) : pyres B :=
  match c with
  | Ok a => k a
  | Raise e => Raise e
  end.

Notation "x <- c ;; k" := (bind c (fun x => k))
  (at level 100, c at next level, right associativity).

(** [isinstance(exc, ValueError)]: what [except (ValueError,
    json.JSONDecodeError)] and [except ValueError] catch, with [str(exc)]. *)
Definition as_ValueError (e : exn) : option string :=
  match e with
  | ValueError msg => Some msg
  | JSONDecodeError msg => Some msg
  | _ => None
  end.

(** ** Strings *)

(** The code points for which [str.isspace] holds, the characters
    [str.strip()] removes: tab to carriage return, the separators
    U+001C-U+001F, the space, U+0085, U+00A0, U+1680, U+2000-U+200A, U+2028,
    U+2029, U+202F, U+205F and U+3000. *)
Definition space_code_points : list N :=
  [9; 10; 11; 12; 13; 28; 29; 30; 31; 32; 133; 160; 5760;
   8192; 8193; 8194; 8195; 8196; 8197; 8198; 8199; 8200; 8201; 8202;
   8232; 8233; 8239; 8287; 12288]%N.

(** The UTF-8 encoding of a code point below U+10000. *)
Definition utf8 (cp : N) : string :=
  if (cp <? 128)%N then String (ascii_of_N cp) EmptyString
  else if (cp <? 2048)%N then
    String (ascii_of_N (192 + cp / 64))
      (String (ascii_of_N (128 + cp mod 64)) EmptyString)
  else
    String (ascii_of_N (224 + cp / 4096))
      (String (ascii_of_N (128 + (cp / 64) mod 64))
         (String (ascii_of_N (128 + cp mod 64)) EmptyString)).

(** The whitespace characters, encoded. *)
Definition whitespace : list string := utf8 <$> space_code_points.

(** [strip_prefix w s]: what follows [w] in [s], when [s] starts with [w]. *)
Fixpoint strip_prefix (w s : string) : option string :=
  match w, s with
  | EmptyString, _ => Some s
  | String a w', String b s' =>
      if Ascii.eqb a b then strip_prefix w' s' else None
  | String _ _, EmptyString => None
  end.

(** [drop_space s]: what follows the first character of [s], when that
    character is whitespace. *)
Fixpoint drop_first (chars : list string) (s : string) : option string :=
  match chars with
  | [] => None
  | w :: chars' =>
      match strip_prefix w s with
      | Some r => Some r
      | None => drop_first chars' s
      end
  end.

Definition drop_space (s : string) : option string := drop_first whitespace s.

(** Whitespace characters are dropped from the left as long as there is one;
    [n] bounds the number of rounds. *)
Fixpoint lstrip_rounds (n : nat) (s : string) : string :=
  match n with
  | O => s
  | S n' =>
      match drop_space s with
      | Some r => lstrip_rounds n' r
      | None => s
      end
  end.

(** [s.lstrip()] *)
Definition lstrip (s : string) : string := lstrip_rounds (String.length s) s.

(** [s.rstrip()]: [s] is cut where the rest is nothing but whitespace. *)
Fixpoint rstrip (s : string) : string :=
  match s with
  | EmptyString => EmptyString
  | String c r =>
      match lstrip s with
      | EmptyString => EmptyString
      | _ => String c (rstrip r)
      end
  end.

(** [s.strip()] *)
Definition strip (s : string) : string := rstrip (lstrip s).

(** A string made of whitespace characters only. *)
Inductive blank : string -> Prop :=
| blank_nil : blank EmptyString
| blank_cons (w s : string) : w ∈ whitespace -> blank s -> blank (w +:+ s).

(** [t] is [raw] without the whitespace around it: [raw] is [t] between two
    blank strings, and [t] neither starts nor ends with a whitespace
    character. *)
Definition trimmed (raw t : string) : Prop :=
  (exists l r, raw = l +:+ t +:+ r /\ blank l /\ blank r) /\
  (forall w r, w ∈ whitespace -> t <> w +:+ r) /\
  (forall w r, w ∈ whitespace -> t <> r +:+ w).

(** Python's truth value of a string: [not s] holds for the empty one. *)
Definition is_empty (s : string) : bool :=
  match s with
  | EmptyString => true
  | String _ _ => false
  end.

(** ** Dictionaries *)

Fixpoint assoc (k : string) (d : list (string * pyval)) : option pyval :=
  match d with
  | [] => None
  | (k', v) :: d' => if String.eqb k k' then Some v else assoc k d'
  end.

(** [v.get(k, dflt)]: defined on dictionaries only; every other value has no
    attribute [get]. *)
Definition py_get (v : pyval) (k : string) (dflt : pyval) : pyres pyval :=
  match v with
  | PDict d => Ok (default dflt (assoc k d))
  | _ => Raise AttributeError
  end.

(** [v.strip()]: defined on strings only. *)
Definition py_strip (v : pyval) : pyres string :=
  match v with
  | PStr s => Ok (strip s)
  | _ => Raise AttributeError
  end.

(** ** Library functions the handlers call *)

Class PyLib : Type := {
  (** [json.loads] on a [str] argument *)
  json_loads : string -> pyres pyval;
  (** [json.dumps] *)
  json_dumps : pyval -> string;
  (** [str(v)] for a value that is not a string *)
  str_other : pyval -> string
}.

Section Library.
Context `{PyLib}.

(** [json.loads(v)]: a value that is not text is refused with [TypeError]. *)
Definition py_json_loads (v : pyval) : pyres pyval :=
  match v with
  | PStr s => json_loads s
  | _ => Raise TypeError
  end.

(** [str(v)] *)
Definition py_str (v : pyval) : string :=
  match v with
  | PStr s => s
  | _ => str_other v
  end.

End Library.

(** ** The process environment *)

(** What a handler reads from outside its arguments during one invocation:
    the environment variable, the identifier [str(uuid.uuid4())] hands out,
    the clock reading [datetime.now(timezone.utc).isoformat()], and what
    the table client does with the request of this invocation:
    [fault = Some x] makes the call raise [x] with the request not applied
    ([ClientError code] when the service answers with an error,
    [OtherError name] for what botocore raises by itself, such as
    [EndpointConnectionError] when no connection is made); [page = Some n] makes the
    answer to a query end after [n] items and carry a [LastEvaluatedKey]
    (DynamoDB ends a page at 1 MB of data), [page = None] makes it hold the
    whole result. *)
Record env : Type := {
  NOTES_TABLE_NAME : option string;
  uuid4 : string;
  utcnow : string;
  fault : option exn;
  page : option nat
}.

(** [TABLE_NAME]: the variable, or the empty string when it is unset,
    passed through [strip()], as the module computes it on import. *)
Definition TABLE_NAME (e : env) : string :=
  strip (default EmptyString (NOTES_TABLE_NAME e)).

Definition OWNER : string := "global".

(** ** The table *)

(** An item is its attributes, all of DynamoDB type S; the table maps the
    composite key (partition key [owner], sort key [id]) to the item. *)
Abbreviation item := (gmap string string).
Abbreviation table := (gmap (string * string) (gmap string string)).

Inductive call : Type :=
| PutItem (it : item)
| UpdateItem (k : string * string) (title note ts : string)
| DeleteItem (k : string * string)
| Query (owner : string).

Record world : Type := {
  tbl : table;
  calls : list call
}.

Definition log (c : call) (w : world) : world :=
  {| tbl := tbl w; calls := calls w ++ [c] |}.

Definition set_tbl (t : table) (w : world) : world :=
  {| tbl := t; calls := calls w |}.

Definition ConditionalCheckFailedException : string :=
  "ConditionalCheckFailedException".

(** [attribute_exists(a)] evaluated on the item stored under the key of the
    request, if any. *)
Definition attribute_exists (a : string) (cur : option item) : bool :=
  match cur with
  | Some it => bool_decide (is_Some (it !! a))
  | None => false
  end.

Definition attribute_not_exists (a : string) (cur : option item) : bool :=
  negb (attribute_exists a cur).

(** [table.put_item(Item=it, ConditionExpression="attribute_not_exists(#id)")] *)
Definition put_item (e : env) (it : item) (w : world) : pyres unit * world :=
  let w1 := log (PutItem it) w in
  match fault e with
  | Some x => (Raise x, w1)
  | None =>
      match it !! "owner", it !! "id" with
      | Some o, Some i =>
          if attribute_not_exists "id" (tbl w !! (o, i))
          then (Ok tt, set_tbl (<[(o, i) := it]> (tbl w)) w1)
          else (Raise (ClientError ConditionalCheckFailedException), w1)
      | _, _ => (Raise (ClientError "ValidationException"), w1)
      end
  end.

(** [table.update_item(Key=k, UpdateExpression="SET #title = :title, #note =
    :note, #updated_at = :ts", ConditionExpression="attribute_exists(#id)",
    ReturnValues="ALL_NEW")]: the result is [resp["Attributes"]]. *)
Definition update_item (e : env) (k : string * string) (title note ts : string)
    (w : world) : pyres item * world :=
  let w1 := log (UpdateItem k title note ts) w in
  match fault e with
  | Some x => (Raise x, w1)
  | None =>
      match tbl w !! k with
      | Some it =>
          if attribute_exists "id" (Some it)
          then
            let it' :=
              <["updated_at" := ts]> (<["note" := note]> (<["title" := title]> it)) in
            (Ok it', set_tbl (<[k := it']> (tbl w)) w1)
          else (Raise (ClientError ConditionalCheckFailedException), w1)
      | None => (Raise (ClientError ConditionalCheckFailedException), w1)
      end
  end.

(** [table.delete_item(Key=k, ConditionExpression="attribute_exists(#id)")] *)
Definition delete_item (e : env) (k : string * string) (w : world)
    : pyres unit * world :=
  let w1 := log (DeleteItem k) w in
  match fault e with
  | Some x => (Raise x, w1)
  | None =>
      if attribute_exists "id" (tbl w !! k)
      then (Ok tt, set_tbl (delete k (tbl w)) w1)
      else (Raise (ClientError ConditionalCheckFailedException), w1)
  end.

(** The order DynamoDB keeps the items of a partition in: by sort key,
    strings compared byte by byte. *)
Definition key_le (x y : (string * string) * gmap string string) : Prop :=
  String.leb x.1.2 y.1.2 = true.

#[export] Instance key_le_dec x y : Decision (key_le x y).
Proof. unfold key_le. apply _. Defined.

(** The items of one partition, in that order. *)
Definition partition (o : string) (t : table) : list item :=
  (merge_sort key_le (map_to_list (filter (fun kv => kv.1.1 = o) t))).*2.

(** The part of a result that the first page of the answer holds. *)
Definition first_page (e : env) (items : list item) : list item :=
  match page e with
  | Some n => take n items
  | None => items
  end.

(** [table.query(KeyConditionExpression=Key("owner").eq(o))]: the result is
    [resp["Items"]], the items of the first page. *)
Definition query (e : env) (o : string) (w : world) : pyres (list item) * world :=
  let w1 := log (Query o) w in
  match fault e with
  | Some x => (Raise x, w1)
  | None => (Ok (first_page e (partition o (tbl w))), w1)
  end.

(** An item as the Python dictionary boto3 hands back. *)
Definition item_to_py (it : item) : pyval :=
  PDict ((fun kv => (kv.1, PStr kv.2)) <$> map_to_list it).

(** ** Helpers shared by the four files *)

Record response : Type := {
  statusCode : Z;
  headers : list (string * string);
  body : string
}.

Section Helpers.
Context `{PyLib}.

(** [_response(status_code, body)] *)
Definition _response (status_code : Z) (b : pyval) : response :=
  {| statusCode := status_code;
     headers := [("Content-Type", "application/json")];
     body := json_dumps b |}.

(** The dictionary [{"error": msg}]. *)
Definition error_body (msg : string) : pyval :=
  PDict [("error", PStr msg)].

(** [_require_env()] *)
Definition _require_env (e : env) : pyres unit :=
  if is_empty (TABLE_NAME e)
  then Raise (ValueError "NOTES_TABLE_NAME environment variable is required")
  else Ok tt.

(** The chain of two [.get] (defaults: the empty dictionary, the empty
    string) and [.strip()] on the event's [pathParameters]. *)
Definition path_id (event : pyval) : pyres string :=
  params <- py_get event "pathParameters" (PDict []) ;;
  v <- py_get params "id" (PStr EmptyString) ;;
  py_strip v.

(** [_get_note_id(event)] of [update.py] and [delete.py]: [path_id] under
    [except AttributeError], the only exception the chain can raise (lemma
    [path_id_raises] below). *)
Definition _get_note_id (event : pyval) : string :=
  match path_id event with
  | Ok s => s
  | Raise _ => EmptyString
  end.

(** [payload = json.loads(event.get("body", "{}"))] *)
Definition request_payload (event : pyval) : pyres pyval :=
  raw <- py_get event "body" (PStr "{}") ;;
  py_json_loads raw.

(** [str(payload.get(k, dflt)).strip()], [dflt] the empty string, on a
    payload that is a dictionary. *)
Definition field (d : list (string * pyval)) (k : string) : string :=
  strip (py_str (default (PStr EmptyString) (assoc k d))).

(** The statements that follow in the same [try:] block of [create.py] and
    [update.py]: both fields are read, then checked; the result is
    [(title, note)]. *)
Definition payload_fields (payload : pyval) : pyres (string * string) :=
  t <- py_get payload "title" (PStr EmptyString) ;;
  let title := strip (py_str t) in
  n <- py_get payload "note" (PStr EmptyString) ;;
  let note := strip (py_str n) in
  if is_empty title then Raise (ValueError "title is required")
  else if is_empty note then Raise (ValueError "note is required")
  else Ok (title, note).

(** The whole [try:] block under the heading "Parse request body". *)
Definition request_fields (event : pyval) : pyres (string * string) :=
  payload <- request_payload event ;;
  payload_fields payload.

End Helpers.

(** ** create.py *)
Module Create.
Section Handler.
Context `{PyLib}.

(** The dictionary [item] built under "Build item". *)
Definition new_item (note_id title note now : string) : item :=
  <["owner" := OWNER]> (<["id" := note_id]> (<["title" := title]>
    (<["note" := note]> (<["created_at" := now]> {["updated_at" := now]})))).

Definition lambda_handler (e : env) (event : pyval) (w : world)
    : pyres response * world :=
  match _require_env e with
  | Raise x =>
      match as_ValueError x with
      | Some msg => (Ok (_response 500 (error_body msg)), w)
      | None => (Raise x, w)
      end
  | Ok _ =>
      match request_fields event with
      | Raise x =>
          match as_ValueError x with
          | Some msg =>
              (Ok (_response 400 (error_body ("Invalid request body: " +:+ msg))), w)
          | None => (Raise x, w)
          end
      | Ok (title, note) =>
          let note_id := uuid4 e in
          let now := utcnow e in
          let it := new_item note_id title note now in
          match put_item e it w with
          | (Raise (ClientError _), w') =>
              (Ok (_response 500 (error_body "Failed to create note")), w')
          | (Raise x, w') => (Raise x, w')
          | (Ok _, w') =>
              (Ok (_response 201
                     (PDict [("id", PStr note_id); ("title", PStr title);
                             ("note", PStr note)])), w')
          end
      end
  end.

End Handler.
End Create.

(** ** list.py *)
Module ListNotes.
Section Handler.
Context `{PyLib}.

Definition lambda_handler (e : env) (event : pyval) (w : world)
    : pyres response * world :=
  match _require_env e with
  | Raise x =>
      match as_ValueError x with
      | Some msg => (Ok (_response 500 (error_body msg)), w)
      | None => (Raise x, w)
      end
  | Ok _ =>
      match query e OWNER w with
      | (Raise (ClientError _), w') =>
          (Ok (_response 500 (error_body "Failed to list notes")), w')
      | (Raise x, w') => (Raise x, w')
      | (Ok items, w') =>
          (Ok (_response 200 (PDict [("items", PList (item_to_py <$> items))])), w')
      end
  end.

End Handler.
End ListNotes.

(** ** update.py *)
Module Update.
Section Handler.
Context `{PyLib}.

Definition lambda_handler (e : env) (event : pyval) (w : world)
    : pyres response * world :=
  match _require_env e with
  | Raise x =>
      match as_ValueError x with
      | Some msg => (Ok (_response 500 (error_body msg)), w)
      | None => (Raise x, w)
      end
  | Ok _ =>
      let note_id := _get_note_id event in
      if is_empty note_id
      then (Ok (_response 400 (error_body "Note id is required")), w)
      else
        match request_fields event with
        | Raise x =>
            match as_ValueError x with
            | Some msg =>
                (Ok (_response 400 (error_body ("Invalid request body: " +:+ msg))), w)
            | None => (Raise x, w)
            end
        | Ok (title, note) =>
            let now := utcnow e in
            match update_item e (OWNER, note_id) title note now w with
            | (Raise (ClientError code), w') =>
                if String.eqb code ConditionalCheckFailedException
                then (Ok (_response 404 (error_body "Note not found")), w')
                else (Ok (_response 500 (error_body "Failed to update note")), w')
            | (Raise x, w') => (Raise x, w')
            | (Ok attrs, w') => (Ok (_response 200 (item_to_py attrs)), w')
            end
        end
  end.

End Handler.
End Update.

(** ** delete.py *)
Module Delete.
Section Handler.
Context `{PyLib}.

Definition lambda_handler (e : env) (event : pyval) (w : world)
    : pyres response * world :=
  match _require_env e with
  | Raise x =>
      match as_ValueError x with
      | Some msg => (Ok (_response 500 (error_body msg)), w)
      | None => (Raise x, w)
      end
  | Ok _ =>
      let note_id := _get_note_id event in
      if is_empty note_id
      then (Ok (_response 400 (error_body "Note id is required")), w)
      else
        match delete_item e (OWNER, note_id) w with
        | (Raise (ClientError code), w') =>
            if String.eqb code ConditionalCheckFailedException
            then (Ok (_response 404 (error_body "Note not found")), w')
            else (Ok (_response 500 (error_body "Failed to delete note")), w')
        | (Raise x, w') => (Raise x, w')
        | (Ok _, w') => (Ok (_response 200 (PDict [("message", PStr "Note deleted")])), w')
        end
  end.

End Handler.
End Delete.

(** ** Predicates used in the statements *)

(** The required setting is present: [TABLE_NAME] is not the empty string. *)
Definition configured (e : env) : Prop := TABLE_NAME e <> EmptyString.

(** The table service answers the request of this invocation. *)
Definition reachable (e : env) : Prop := fault e = None.


(** What DynamoDB maintains for every stored item: its key attributes are the
    key it is stored under. *)
Definition store_wf (t : table) : Prop :=
  forall o i it, t !! (o, i) = Some it ->
    it !! "owner" = Some o /\ it !! "id" = Some i.

(** A response with one of the five status codes, the JSON content type,
    and a body that is the encoding of a dictionary. *)
Definition well_formed (L : PyLib) (r : response) : Prop :=
  statusCode r ∈ [200; 201; 400; 404; 500] /\
  headers r = [("Content-Type", "application/json")] /\
  exists d, body r = json_dumps (PDict d).

(** The event carries the string [raw] as its path identifier. *)
Definition path_id_of (event : pyval) (raw : string) : Prop :=
  exists ev ps,
    event = PDict ev /\
    default (PDict []) (assoc "pathParameters" ev) = PDict ps /\
    assoc "id" ps = Some (PStr raw).

(** Order of two timestamps in their textual form. *)
Definition earlier (a b : string) : Prop := String.ltb a b = true.

(** ** A small library instance and sample data *)

Module Sample.

Definition dq : string := String "034"%char EmptyString.
Definition quoted (s : string) : string := dq +:+ s +:+ dq.

(** The document [{"title": "A", "note": "B"}]. *)
Definition body_AB : string :=
  "{" +:+ quoted "title" +:+ ": " +:+ quoted "A" +:+ ", "
      +:+ quoted "note" +:+ ": " +:+ quoted "B" +:+ "}".

(** The document whose [title] is the empty string and whose [note] is
    [x]. *)
Definition body_empty_title : string :=
  "{" +:+ quoted "title" +:+ ": " +:+ quoted EmptyString +:+ ", "
      +:+ quoted "note" +:+ ": " +:+ quoted "x" +:+ "}".

(** U+00A0 (no-break space), U+2003 (em space) and the tab, as Python
    strings. *)
Definition nbsp : string := utf8 160.
Definition em_space : string := utf8 8195.
Definition tab : string := utf8 9.

(** The document [{"title": " A\u00a0", "note": "\tB "}]: both fields
    carry whitespace around their text. *)
Definition body_padded : string :=
  "{" +:+ quoted "title" +:+ ": " +:+ quoted " A\u00a0" +:+ ", "
      +:+ quoted "note" +:+ ": " +:+ quoted "\tB " +:+ "}".

(** [json.loads] tabulated on the documents of the examples; every other
    text is answered with a decoding error. *)
Definition loads (s : string) : pyres pyval :=
  if String.eqb s body_padded
  then Ok (PDict [("title", PStr (" A" +:+ nbsp)); ("note", PStr (tab +:+ "B "))])
  else
  if String.eqb s "{}" then Ok (PDict [])
  else if String.eqb s "[]" then Ok (PList [])
  else if String.eqb s "5" then Ok (PInt 5)
  else if String.eqb s body_AB
  then Ok (PDict [("title", PStr "A"); ("note", PStr "B")])
  else if String.eqb s body_empty_title
  then Ok (PDict [("title", PStr EmptyString); ("note", PStr "x")])
  else Raise (JSONDecodeError "Expecting value: line 1 column 1 (char 0)").

(** A rendering of values as JSON text, without escapes in strings. *)
Fixpoint dumps (v : pyval) : string :=
  match v with
  | PNone => "null"
  | PBool true => "true"
  | PBool false => "false"
  | PInt n => pretty n
  | PFloat _ => "0.0"
  | PStr s => quoted s
  | PList l =>
      "[" +:+
      (fix elems (l : list pyval) : string :=
         match l with
         | [] => EmptyString
         | [x] => dumps x
         | x :: r => dumps x +:+ ", " +:+ elems r
         end) l +:+ "]"
  | PDict d =>
      "{" +:+
      (fix pairs (d : list (string * pyval)) : string :=
         match d with
         | [] => EmptyString
         | [(k, x)] => quoted k +:+ ": " +:+ dumps x
         | (k, x) :: r => quoted k +:+ ": " +:+ dumps x +:+ ", " +:+ pairs r
         end) d +:+ "}"
  end.

#[export] Instance lib : PyLib :=
  {| json_loads := loads; json_dumps := dumps; str_other := dumps |}.

Definition env_ok : env :=
  {| NOTES_TABLE_NAME := Some "notes";
     uuid4 := "6f1c2d3e-0000-4000-8000-000000000001";
     utcnow := "2024-05-01T10:00:00+00:00";
     fault := None;
     page := None |}.



(** A host whose clock is behind the one that wrote [note1] below. *)
Definition env_behind : env :=
  {| NOTES_TABLE_NAME := Some "notes";
     uuid4 := uuid4 env_ok;
     utcnow := "2024-05-01T09:59:59.998113+00:00";
     fault := None;
     page := None |}.

(** A stored note, written at the reading of [env_ok]'s clock. *)
Definition note1 : item :=
  Create.new_item "n1" "old title" "old note" "2024-05-01T10:00:00+00:00".

Definition w_empty : world := {| tbl := ∅; calls := [] |}.
Definition w_one : world := {| tbl := {[ (OWNER, "n1") := note1 ]}; calls := [] |}.

(** PUT /notes/n1 with the body [{"title": "A", "note": "B"}]. *)
Definition ev_put_n1 : pyval :=
  PDict [("pathParameters", PDict [("id", PStr "n1")]); ("body", PStr body_AB)].

(** The same request for an identifier that was never created. *)
Definition ev_put_n2 : pyval :=
  PDict [("pathParameters", PDict [("id", PStr " n2 ")]); ("body", PStr body_AB)].

(** POST /notes with the body [{"title": "A", "note": "B"}]. *)
Definition ev_post_AB : pyval := PDict [("body", PStr body_AB)].

(** A request with the body [body_empty_title]. *)
Definition ev_post_empty_title : pyval :=
  PDict [("pathParameters", PDict [("id", PStr "n1")]);
         ("body", PStr body_empty_title)].

(** A request whose body is the JSON text [[]]. *)
Definition ev_list_body : pyval :=
  PDict [("pathParameters", PDict [("id", PStr "n1")]); ("body", PStr "[]")].

(** A request without a body, as API Gateway delivers it. *)
Definition ev_null_body : pyval :=
  PDict [("pathParameters", PDict [("id", PStr "n1")]); ("body", PNone)].

(** A request whose event has no [body] key. *)
Definition ev_no_body : pyval :=
  PDict [("pathParameters", PDict [("id", PStr "n1")])].

(** The setting is there but holds only whitespace: a space, a no-break
    space and an em space. *)
Definition env_blank : env :=
  {| NOTES_TABLE_NAME := Some (" " +:+ nbsp +:+ em_space);
     uuid4 := uuid4 env_ok; utcnow := utcnow env_ok; fault := None;
     page := None |}.

(** A later invocation: another identifier, a later clock reading. *)
Definition env_later : env :=
  {| NOTES_TABLE_NAME := Some "notes";
     uuid4 := "6f1c2d3e-0000-4000-8000-000000000002";
     utcnow := "2024-05-01T10:05:00+00:00";
     fault := None;
     page := None |}.

(** A request without path parameters, as API Gateway delivers it. *)
Definition ev_null_params : pyval :=
  PDict [("pathParameters", PNone); ("body", PStr body_AB)].


(** A request for the note that [env_ok]'s Create stores. *)
Definition ev_created : pyval :=
  PDict [("pathParameters", PDict [("id", PStr (uuid4 env_ok))]);
         ("body", PStr body_AB)].

(** The table client cannot reach the service. *)
Definition env_unreachable : env :=
  {| NOTES_TABLE_NAME := Some "notes";
     uuid4 := uuid4 env_ok; utcnow := utcnow env_ok;
     fault := Some (OtherError "EndpointConnectionError");
     page := None |}.

(** The path identifier [n1] with a no-break space before and a space
    after it. *)
Definition padded_n1 : string := nbsp +:+ "n1 ".

(** PUT or DELETE /notes/<padded n1>, with the body [body_padded]. *)
Definition ev_padded_n1 : pyval :=
  PDict [("pathParameters", PDict [("id", PStr padded_n1)]);
         ("body", PStr body_padded)].

(** The same for an identifier that was never created, [n2] between an em
    space and a no-break space. *)
Definition ev_padded_n2 : pyval :=
  PDict [("pathParameters", PDict [("id", PStr (em_space +:+ "n2" +:+ nbsp))]);
         ("body", PStr body_padded)].

(** DELETE /notes/<U+00A0>: the path identifier is a no-break space. *)
Definition ev_blank_id : pyval :=
  PDict [("pathParameters", PDict [("id", PStr nbsp)]); ("body", PStr body_AB)].

(** POST /notes with the body [body_padded]. *)
Definition ev_post_padded : pyval := PDict [("body", PStr body_padded)].

(** A request whose body is the JSON text [5]. *)
Definition ev_number_body : pyval :=
  PDict [("pathParameters", PDict [("id", PStr "n1")]); ("body", PStr "5")].

(** An event with neither body nor path parameters. *)
Definition ev_empty : pyval := PDict [].





End Sample.

(** * Properties *)

(** ** Trimming *)

Lemma str_app_nil_l (s : string) : EmptyString +:+ s = s.
Proof. reflexivity. Qed.

Lemma str_app_cons (c : ascii) (s t : string) :
  String c s +:+ t = String c (s +:+ t).
Proof. reflexivity. Qed.

Lemma str_app_nil_r (s : string) : s +:+ EmptyString = s.
Proof.
  induction s as [|c s IH]; [reflexivity|]. rewrite str_app_cons. congruence.
Qed.

Lemma str_app_assoc (a b c : string) : (a +:+ b) +:+ c = a +:+ (b +:+ c).
Proof.
  induction a as [|x a IH]; [reflexivity|]. rewrite !str_app_cons. congruence.
Qed.

Lemma str_length_app (a b : string) :
  String.length (a +:+ b) = (String.length a + String.length b)%nat.
Proof.
  induction a as [|x a IH]; [reflexivity|]. rewrite str_app_cons. simpl. congruence.
Qed.

Lemma strip_prefix_Some (w s r : string) :
  strip_prefix w s = Some r <-> s = w +:+ r.
Proof.
  revert s. induction w as [|a w IH]; intros s; simpl.
  - rewrite str_app_nil_l. split; congruence.
  - rewrite str_app_cons. destruct s as [|b s]; [split; discriminate|].
    destruct (Ascii.eqb a b) eqn:Hab.
    + apply Ascii.eqb_eq in Hab as ->. rewrite IH.
      split; [intros ->; reflexivity|intros [= ->]; reflexivity].
    + apply Ascii.eqb_neq in Hab.
      split; [discriminate|intros [= ? ?]; congruence].
Qed.

Lemma drop_first_Some (chars : list string) (s r : string) :
  drop_first chars s = Some r -> exists w, w ∈ chars /\ s = w +:+ r.
Proof.
  induction chars as [|w chars IH]; simpl; [discriminate|].
  destruct (strip_prefix w s) as [r'|] eqn:Hw.
  - intros [= <-]. exists w. split; [left|]. apply strip_prefix_Some, Hw.
  - intros Hr. destruct (IH Hr) as (w' & Hin & ->). exists w'.
    split; [right; exact Hin|reflexivity].
Qed.

Lemma drop_first_None (chars : list string) (s : string) :
  drop_first chars s = None -> forall w r, w ∈ chars -> s <> w +:+ r.
Proof.
  induction chars as [|w0 chars IH]; simpl; intros Hnone w r Hin.
  - inversion Hin.
  - destruct (strip_prefix w0 s) as [r'|] eqn:Hw0; [discriminate|].
    apply elem_of_cons in Hin as [->|Hin]; [|exact (IH Hnone w r Hin)].
    intros Hs. apply strip_prefix_Some in Hs. congruence.
Qed.

(** Every whitespace character is at least one byte long, and no other
    whitespace character starts a string that starts with it. *)
Lemma whitespace_cases (P : string -> Prop) :
  Forall P whitespace -> forall w, w ∈ whitespace -> P w.
Proof. intros HP w Hw. rewrite Forall_forall in HP. exact (HP w Hw). Qed.

Lemma whitespace_nonempty (w : string) :
  w ∈ whitespace -> (0 < String.length w)%nat.
Proof.
  revert w. apply (whitespace_cases (fun w => (0 < String.length w)%nat)).
  cbv [whitespace space_code_points fmap list_fmap].
  repeat (constructor; [simpl; lia|]). constructor.
Qed.

Lemma drop_space_whitespace (w s : string) :
  w ∈ whitespace -> drop_space (w +:+ s) = Some s.
Proof.
  revert w. apply (whitespace_cases (fun w => drop_space (w +:+ s) = Some s)).
  cbv [whitespace space_code_points fmap list_fmap]. 
  repeat (constructor; [reflexivity|]). constructor.
Qed.

Lemma drop_space_shorter (s r : string) :
  drop_space s = Some r -> (String.length r < String.length s)%nat.
Proof.
  intros Hr. apply drop_first_Some in Hr as (w & Hw & ->).
  apply whitespace_nonempty in Hw. rewrite str_length_app. lia.
Qed.

Lemma lstrip_rounds_spec (n : nat) (s : string) :
  (String.length s <= n)%nat ->
  exists l, s = l +:+ lstrip_rounds n s /\ blank l /\
            drop_space (lstrip_rounds n s) = None.
Proof.
  revert s. induction n as [|n IH]; intros s Hlen.
  - destruct s; [|simpl in Hlen; lia].
    exists EmptyString. split; [reflexivity|]. split; [constructor|reflexivity].
  - simpl. destruct (drop_space s) as [r|] eqn:Hr.
    + pose proof (drop_space_shorter s r Hr) as Hshort.
      destruct (IH r ltac:(lia)) as (l & Hl & Hblank & Hnone).
      apply drop_first_Some in Hr as (w & Hw & ->).
      exists (w +:+ l). rewrite str_app_assoc, <- Hl.
      split; [reflexivity|]. split; [constructor; assumption|exact Hnone].
    + exists EmptyString. split; [reflexivity|]. split; [constructor|exact Hr].
Qed.

Lemma lstrip_rounds_stable (n m : nat) (s : string) :
  (String.length s <= n)%nat -> (String.length s <= m)%nat ->
  lstrip_rounds n s = lstrip_rounds m s.
Proof.
  revert m s. induction n as [|n IH]; intros m s Hn Hm.
  - destruct s; [|simpl in Hn; lia]. destruct m; reflexivity.
  - destruct m as [|m].
    + destruct s; [reflexivity|simpl in Hm; lia].
    + simpl. destruct (drop_space s) as [r|] eqn:Hr; [|reflexivity].
      apply drop_space_shorter in Hr. apply IH; lia.
Qed.

Lemma lstrip_spec (s : string) :
  exists l, s = l +:+ lstrip s /\ blank l /\ drop_space (lstrip s) = None.
Proof. apply lstrip_rounds_spec. reflexivity. Qed.

Lemma lstrip_blank (s : string) : blank s -> lstrip s = EmptyString.
Proof.
  induction 1 as [|w s Hw Hs IH]; [reflexivity|].
  unfold lstrip. pose proof (whitespace_nonempty w Hw) as Hlen.
  rewrite str_length_app.
  destruct (String.length w + String.length s)%nat as [|k] eqn:Hk; [lia|].
  cbn [lstrip_rounds]. rewrite (drop_space_whitespace w s Hw).
  rewrite <- IH. apply lstrip_rounds_stable; lia.
Qed.

Lemma blank_lstrip (s : string) : lstrip s = EmptyString -> blank s.
Proof.
  intros Hs. destruct (lstrip_spec s) as (l & Hl & Hblank & _).
  rewrite Hs, str_app_nil_r in Hl. subst l. exact Hblank.
Qed.

Lemma rstrip_spec (s : string) :
  (exists r, s = rstrip s +:+ r /\ blank r) /\
  (forall w a, w ∈ whitespace -> rstrip s <> a +:+ w).
Proof.
  assert (Hempty : forall w a, w ∈ whitespace -> EmptyString <> a +:+ w).
  { intros w a Hw Heq. apply whitespace_nonempty in Hw.
    apply (f_equal String.length) in Heq. rewrite str_length_app in Heq.
    simpl in Heq. lia. }
  induction s as [|c s [(r & Hr & Hblank) IHend]].
  - split; [|exact Hempty]. exists EmptyString. split; [reflexivity|constructor].
  - cbn [rstrip]. destruct (lstrip (String c s)) as [|c' s'] eqn:Hl.
    + split; [|exact Hempty]. exists (String c s).
      split; [reflexivity|]. apply blank_lstrip, Hl.
    + split.
      * exists r. split; [|exact Hblank]. rewrite str_app_cons. congruence.
      * intros w a Hw Heq. destruct a as [|c0 a].
        -- rewrite str_app_nil_l in Heq.
           assert (Hall : blank (String c s)).
           { rewrite Hr at 1. rewrite <- str_app_cons, Heq.
             constructor; assumption. }
           apply lstrip_blank in Hall. congruence.
        -- rewrite str_app_cons in Heq. injection Heq as _ Heq.
           exact (IHend w a Hw Heq).
Qed.

(** What [strip] returns is its argument without the whitespace around
    it. *)
Lemma strip_trimmed (s : string) : trimmed s (strip s).
Proof.
  unfold strip.
  destruct (lstrip_spec s) as (l & Hl & Hlblank & Hnone).
  destruct (rstrip_spec (lstrip s)) as [(r & Hr & Hrblank) Hend].
  split; [|split].
  - exists l, r. split; [|auto]. rewrite <- Hr. exact Hl.
  - intros w r' Hw Heq. rewrite Heq, str_app_assoc in Hr. rewrite Hr in Hnone.
    rewrite (drop_space_whitespace w _ Hw) in Hnone. discriminate.
  - intros w r' Hw. apply Hend, Hw.
Qed.

(** A string that is blank is trimmed to the empty string, and only such a
    string is. *)
Lemma strip_empty_iff (s : string) : strip s = EmptyString <-> blank s.
Proof.
  split.
  - intros Hs. destruct (strip_trimmed s) as [(l & r & Hlr & Hl & Hr) _].
    rewrite Hs, str_app_nil_l in Hlr. subst s.
    clear Hs. induction Hl as [|w l Hw Hl IH]; [exact Hr|].
    rewrite str_app_assoc. constructor; assumption.
  - intros Hs. unfold strip. rewrite (lstrip_blank s Hs). reflexivity.
Qed.

(** ** Basic facts about the helpers *)

Lemma is_empty_true (s : string) : is_empty s = true <-> s = EmptyString.
Proof. destruct s; simpl; split; congruence. Qed.

Lemma is_empty_false (s : string) : is_empty s = false <-> s <> EmptyString.
Proof. destruct s; simpl; split; congruence. Qed.


Section HelperFacts.
Context `{PyLib}.

Lemma require_env_configured (e : env) :
  configured e -> _require_env e = Ok tt.
Proof.
  unfold configured, _require_env. intros Hc.
  apply is_empty_false in Hc. rewrite Hc. reflexivity.
Qed.

Lemma require_env_unset (e : env) :
  TABLE_NAME e = EmptyString ->
  _require_env e =
  Raise (ValueError "NOTES_TABLE_NAME environment variable is required").
Proof. unfold _require_env. intros ->. reflexivity. Qed.

(** The chain inside [_get_note_id] raises nothing but [AttributeError], so
    its [except] clause is exhaustive. *)
Lemma path_id_raises (event : pyval) (x : exn) :
  path_id event = Raise x -> x = AttributeError.
Proof.
  unfold path_id, bind, py_get, py_strip.
  repeat case_match; congruence.
Qed.

Lemma get_note_id_ok (event : pyval) (s : string) :
  path_id event = Ok s -> _get_note_id event = s.
Proof. unfold _get_note_id. intros ->. reflexivity. Qed.

(** The identifier the handlers work with is the path identifier without
    the whitespace around it. *)
Lemma get_note_id_of_path (event : pyval) (raw : string) :
  path_id_of event raw ->
  _get_note_id event = strip raw /\ trimmed raw (_get_note_id event).
Proof.
  intros (ev & ps & -> & Hps & Hid).
  assert (Heq : _get_note_id (PDict ev) = strip raw).
  { unfold _get_note_id, path_id, bind, py_get, py_strip.
    rewrite Hps, Hid. reflexivity. }
  split; [exact Heq|]. rewrite Heq. apply strip_trimmed.
Qed.

(** A non-empty identifier comes from a path identifier that is a string. *)
Lemma get_note_id_nonempty (event : pyval) :
  _get_note_id event <> EmptyString ->
  exists raw, path_id_of event raw /\ _get_note_id event = strip raw /\
              trimmed raw (_get_note_id event).
Proof.
  intros Hne.
  assert (Hraw : exists raw, path_id_of event raw).
  { unfold _get_note_id, path_id, bind, py_get, py_strip in Hne.
    destruct event as [| | | | |l|ev]; try congruence.
    destruct (default (PDict []) (assoc "pathParameters" ev))
      as [| | | | |l|ps] eqn:Hps; try congruence.
    destruct (assoc "id" ps) as [v|] eqn:Hv.
    - destruct v as [| | | |raw| |]; simpl in Hne; try congruence.
      exists raw, ev, ps. auto.
    - exfalso. apply Hne. reflexivity. }
  destruct Hraw as [raw Hraw]. exists raw.
  split; [exact Hraw|]. apply get_note_id_of_path, Hraw.
Qed.

(** Reading the fields of a payload that is a dictionary. *)
Lemma payload_fields_dict (d : list (string * pyval)) :
  payload_fields (PDict d) =
  if is_empty (field d "title") then Raise (ValueError "title is required")
  else if is_empty (field d "note") then Raise (ValueError "note is required")
  else Ok (field d "title", field d "note").
Proof. reflexivity. Qed.

(** A payload that is not a dictionary has no [get]. *)
Lemma payload_fields_not_dict (v : pyval) :
  (forall d, v <> PDict d) -> payload_fields v = Raise AttributeError.
Proof. intros Hv. destruct v; try reflexivity. destruct (Hv d eq_refl). Qed.

(** When the [try:] block succeeds, the payload was a dictionary and the two
    results are its trimmed fields, both non-empty. *)
Lemma request_fields_ok (event : pyval) (title note : string) :
  request_fields event = Ok (title, note) ->
  exists d, request_payload event = Ok (PDict d) /\
            title = field d "title" /\ note = field d "note" /\
            title <> EmptyString /\ note <> EmptyString.
Proof.
  unfold request_fields, bind.
  destruct (request_payload event) as [v|x]; [|discriminate].
  destruct v; try discriminate.
  rewrite payload_fields_dict.
  destruct (is_empty (field d "title")) eqn:Ht; [discriminate|].
  destruct (is_empty (field d "note")) eqn:Hn; [discriminate|].
  intros [= <- <-]. exists d.
  apply is_empty_false in Ht, Hn. auto.
Qed.

End HelperFacts.

(** ** Facts about the table operations *)

Lemma tbl_log (c : call) (w : world) : tbl (log c w) = tbl w.
Proof. reflexivity. Qed.

Lemma calls_log (c : call) (w : world) : calls (log c w) = (calls w ++ [c])%list.
Proof. reflexivity. Qed.

Lemma attribute_exists_None (a : string) : attribute_exists a None = false.
Proof. reflexivity. Qed.

Lemma attribute_exists_true (a : string) (cur : option item) :
  attribute_exists a cur = true <->
  exists it, cur = Some it /\ is_Some (it !! a).
Proof.
  unfold attribute_exists. destruct cur as [it|].
  - rewrite bool_decide_eq_true. split; [eauto|].
    intros (it' & [= <-] & Hit). exact Hit.
  - split; [discriminate|]. intros (it' & Hit & _). discriminate.
Qed.

(** On a well-formed table an item under a key always carries [id]. *)
Lemma attribute_exists_wf (t : table) (k : string * string) :
  store_wf t -> attribute_exists "id" (t !! k) = bool_decide (is_Some (t !! k)).
Proof.
  intros Hwf. destruct k as [o i]. unfold attribute_exists.
  destruct (t !! (o, i)) as [it|] eqn:Hk.
  - destruct (Hwf o i it Hk) as [_ Hid].
    rewrite !bool_decide_eq_true_2; eauto.
  - rewrite bool_decide_eq_false_2; [reflexivity|]. intros [? ?]; discriminate.
Qed.

Lemma new_item_attrs (i t n ts : string) :
  let it := Create.new_item i t n ts in
  it !! "owner" = Some OWNER /\ it !! "id" = Some i /\
  it !! "title" = Some t /\ it !! "note" = Some n /\
  it !! "created_at" = Some ts /\ it !! "updated_at" = Some ts.
Proof.
  unfold Create.new_item. simpl.
  repeat split; repeat (rewrite lookup_insert_ne by discriminate);
    try apply lookup_insert_eq; apply lookup_singleton_eq.
Qed.

(** ** Configuration *)

#[local] Existing Instance Sample.lib.



(** ** Requests for an identifier that is not stored *)

(** C1, the claim as stated fails: no record is stored under the identifier
    made of a no-break space, [n1] and a space, yet a Delete for that
    identifier answers 200 and removes the record stored under [n1]: the
    handlers look up the trimmed identifier. *)
Lemma padded_id_deletes_the_stored_record :
  tbl Sample.w_one !! (OWNER, Sample.padded_n1) = None /\
  exists r w',
    Delete.lambda_handler Sample.env_ok Sample.ev_padded_n1 Sample.w_one =
    (Ok r, w') /\
    statusCode r = 200 /\
    is_Some (tbl Sample.w_one !! (OWNER, "n1")) /\
    tbl w' !! (OWNER, "n1") = None.
Proof.
  split; [vm_compute; reflexivity|].
  do 2 eexists. split; [vm_compute; reflexivity|].
  split; [reflexivity|]. split; [eexists; vm_compute; reflexivity|].
  vm_compute. reflexivity.
Qed.

(** C1, amended: with the setting present and the table service answering,
    a request whose path identifier, once trimmed, is not empty and has no
    record under the fixed owner is answered 404 "Note not found" by Update
    (given a payload that passes the checks) and by Delete, and the table
    afterwards is the table before. *)
Theorem absent_id_is_404 {L : PyLib} (e : env) (event : pyval) (w : world) :
  configured e -> reachable e ->
  _get_note_id event <> EmptyString ->
  tbl w !! (OWNER, _get_note_id event) = None ->
  let r := _response 404 (error_body "Note not found") in
  statusCode r = 404 /\
  body r = json_dumps (PDict [("error", PStr "Note not found")]) /\
  (exists raw, path_id_of event raw /\ trimmed raw (_get_note_id event)) /\
  (forall title note, request_fields event = Ok (title, note) ->
     exists w', Update.lambda_handler e event w = (Ok r, w') /\ tbl w' = tbl w) /\
  (exists w', Delete.lambda_handler e event w = (Ok r, w') /\ tbl w' = tbl w).
Proof.
  intros Hc Hr Hid Hnone r. split; [reflexivity|]. split; [reflexivity|].
  split.
  { destruct (get_note_id_nonempty event Hid) as (raw & Hraw & _ & Ht). eauto. }
  apply is_empty_false in Hid. unfold reachable in Hr. split.
  - intros title note Hf. eexists.
    unfold Update.lambda_handler.
    rewrite (require_env_configured e Hc), Hid, Hf.
    unfold update_item. rewrite Hr, Hnone. simpl. split; reflexivity.
  - eexists. unfold Delete.lambda_handler.
    rewrite (require_env_configured e Hc), Hid.
    unfold delete_item. rewrite Hr, Hnone. simpl. split; reflexivity.
Qed.

Lemma absent_id_is_404_witness :
  _get_note_id Sample.ev_padded_n2 = "n2" /\
  tbl Sample.w_one !! (OWNER, "n2") = None /\
  exists w',
    Delete.lambda_handler Sample.env_ok Sample.ev_padded_n2 Sample.w_one =
    (Ok (_response 404 (error_body "Note not found")), w') /\
    tbl w' = tbl Sample.w_one.
Proof.
  split; [vm_compute; reflexivity|]. split; [vm_compute; reflexivity|].
  apply (absent_id_is_404 Sample.env_ok Sample.ev_padded_n2 Sample.w_one).
  - vm_compute. discriminate.
  - reflexivity.
  - vm_compute. discriminate.
  - vm_compute. reflexivity.
Defined.

(** ** Validation *)

(** With the setting present, a request whose payload is a dictionary with
    [title] or [note] missing or empty after trimming is answered 400 by
    Create and (when the path identifier is there) by Update; a request whose
    path identifier is absent or empty after trimming is answered 400 by
    Update and Delete.  In each case the handler hands back the world it was
    given: no table request is made and the table is the same. *)
Theorem invalid_request_is_400 {L : PyLib} (e : env) (event : pyval) (w : world) :
  configured e ->
  (forall d,
     request_payload event = Ok (PDict d) ->
     field d "title" = EmptyString \/ field d "note" = EmptyString ->
     let msg := if is_empty (field d "title")
                then "title is required" else "note is required" in
     let r := _response 400 (error_body ("Invalid request body: " +:+ msg)) in
     statusCode r = 400 /\
     Create.lambda_handler e event w = (Ok r, w) /\
     (_get_note_id event <> EmptyString ->
      Update.lambda_handler e event w = (Ok r, w))) /\
  (_get_note_id event = EmptyString ->
     let r := _response 400 (error_body "Note id is required") in
     statusCode r = 400 /\
     Update.lambda_handler e event w = (Ok r, w) /\
     Delete.lambda_handler e event w = (Ok r, w)).
Proof.
  intros Hc. split.
  - intros d Hp Hempty msg.
    assert (Hf : request_fields event = Raise (ValueError msg)).
    { unfold request_fields, bind. rewrite Hp, payload_fields_dict.
      subst msg. destruct Hempty as [-> | ->]; simpl; [reflexivity|].
      destruct (is_empty (field d "title")); reflexivity. }
    simpl. split; [reflexivity|]. split.
    + unfold Create.lambda_handler.
      rewrite (require_env_configured e Hc), Hf. reflexivity.
    + intros Hid. apply is_empty_false in Hid.
      unfold Update.lambda_handler.
      rewrite (require_env_configured e Hc), Hid, Hf. reflexivity.
  - intros Hid. simpl. split; [reflexivity|].
    unfold Update.lambda_handler, Delete.lambda_handler.
    rewrite (require_env_configured e Hc), Hid. simpl. auto.
Qed.

Lemma invalid_request_is_400_witness :
  configured Sample.env_ok /\
  Create.lambda_handler Sample.env_ok Sample.ev_post_empty_title Sample.w_one =
  (Ok (_response 400 (error_body "Invalid request body: title is required")),
   Sample.w_one) /\
  Delete.lambda_handler Sample.env_ok Sample.ev_post_AB Sample.w_one =
  (Ok (_response 400 (error_body "Note id is required")), Sample.w_one).
Proof.
  assert (Hc : configured Sample.env_ok) by (vm_compute; discriminate).
  split; [exact Hc|].
  split.
  - destruct (invalid_request_is_400 Sample.env_ok Sample.ev_post_empty_title
                Sample.w_one Hc) as [Hfields _].
    destruct (Hfields [("title", PStr EmptyString); ("note", PStr "x")])
      as (_ & Hcreate & _).
    + vm_compute. reflexivity.
    + left. vm_compute. reflexivity.
    + exact Hcreate.
  - destruct (invalid_request_is_400 Sample.env_ok Sample.ev_post_AB
                Sample.w_one Hc) as [_ Hid].
    destruct Hid as (_ & _ & Hdelete); [vm_compute; reflexivity|].
    exact Hdelete.
Defined.

(** C5 (the code against the claim): the body [5] is a JSON text without a
    [title] and without a [note], and the setting is present; Create and
    Update do not answer 400: [payload.get] raises [AttributeError], the
    [except] clause of the parsing block does not name it, and the handler
    ends with the exception.  The table is not touched. *)
Theorem missing_fields_in_number_body_raise {L : PyLib} (w : world) :
  json_loads "5" = Ok (PInt 5) ->
  configured Sample.env_ok /\
  _get_note_id Sample.ev_number_body = "n1" /\
  request_payload Sample.ev_number_body = Ok (PInt 5) /\
  Create.lambda_handler Sample.env_ok Sample.ev_number_body w =
  (Raise AttributeError, w) /\
  Update.lambda_handler Sample.env_ok Sample.ev_number_body w =
  (Raise AttributeError, w).
Proof.
  intros Hloads.
  assert (Hp : request_payload Sample.ev_number_body = Ok (PInt 5))
    by exact Hloads.
  assert (Hf : request_fields Sample.ev_number_body = Raise AttributeError).
  { unfold request_fields. rewrite Hp. reflexivity. }
  split; [vm_compute; discriminate|]. split; [vm_compute; reflexivity|].
  split; [exact Hp|]. split.
  - unfold Create.lambda_handler. rewrite Hf. reflexivity.
  - unfold Update.lambda_handler. rewrite Hf. reflexivity.
Qed.

Lemma missing_fields_in_number_body_raise_witness :
  json_loads "5" = Ok (PInt 5) /\
  Create.lambda_handler Sample.env_ok Sample.ev_number_body Sample.w_one =
  (Raise AttributeError, Sample.w_one) /\
  Update.lambda_handler Sample.env_ok Sample.ev_number_body Sample.w_one =
  (Raise AttributeError, Sample.w_one).
Proof.
  split; [reflexivity|].
  destruct (missing_fields_in_number_body_raise (L:=Sample.lib) Sample.w_one)
    as (_ & _ & _ & Hcreate & Hupdate); [reflexivity|].
  split; [exact Hcreate|exact Hupdate].
Defined.

(** C10, the claim as stated fails for Update: an event with neither a body
    nor path parameters is answered 400 "Note id is required", not with the
    message about [title]: the identifier is checked before the body is
    read. *)
Lemma missing_body_without_id_is_id_required :
  assoc "body" [] = None /\
  exists r,
    Update.lambda_handler Sample.env_ok Sample.ev_empty Sample.w_one =
    (Ok r, Sample.w_one) /\
    statusCode r = 400 /\
    body r = json_dumps (PDict [("error", PStr "Note id is required")]) /\
    body r <>
    json_dumps (PDict [("error", PStr "Invalid request body: title is required")]).
Proof.
  split; [reflexivity|]. eexists. split; [vm_compute; reflexivity|].
  split; [reflexivity|]. split; [reflexivity|]. vm_compute. discriminate.
Qed.

(** C10, amended: with the setting present, an event that has no [body] key
    is read as the empty object (given that [json.loads] decodes the text of
    the default to the empty dictionary); Create, and Update when the event
    carries a path identifier that is not empty after trimming, answer 400
    with the message that [title] is required; Update without such an
    identifier answers 400 "Note id is required".  In each case the handler
    hands back the world it was given. *)
Theorem missing_body_reads_as_empty_object {L : PyLib}
    (e : env) (ev : list (string * pyval)) (w : world) :
  configured e ->
  assoc "body" ev = None ->
  json_loads "{}" = Ok (PDict []) ->
  let r := _response 400
             (error_body "Invalid request body: title is required") in
  let r_id := _response 400 (error_body "Note id is required") in
  statusCode r = 400 /\
  body r =
  json_dumps (PDict [("error", PStr "Invalid request body: title is required")]) /\
  request_payload (PDict ev) = Ok (PDict []) /\
  Create.lambda_handler e (PDict ev) w = (Ok r, w) /\
  (_get_note_id (PDict ev) <> EmptyString ->
   Update.lambda_handler e (PDict ev) w = (Ok r, w)) /\
  (_get_note_id (PDict ev) = EmptyString ->
   Update.lambda_handler e (PDict ev) w = (Ok r_id, w)).
Proof.
  intros Hc Hbody Hloads r r_id.
  assert (Hp : request_payload (PDict ev) = Ok (PDict [])).
  { unfold request_payload. simpl. rewrite Hbody. simpl. exact Hloads. }
  assert (Hf : request_fields (PDict ev) = Raise (ValueError "title is required")).
  { unfold request_fields. rewrite Hp. reflexivity. }
  split; [reflexivity|]. split; [reflexivity|]. split; [exact Hp|]. split.
  - unfold Create.lambda_handler.
    rewrite (require_env_configured e Hc), Hf. reflexivity.
  - split.
    + intros Hid. apply is_empty_false in Hid.
      unfold Update.lambda_handler.
      rewrite (require_env_configured e Hc), Hid, Hf. reflexivity.
    + intros Hid. unfold Update.lambda_handler.
      rewrite (require_env_configured e Hc), Hid. reflexivity.
Qed.

Lemma missing_body_reads_as_empty_object_witness :
  assoc "body" [("pathParameters", PDict [("id", PStr "n1")])] = None /\
  Create.lambda_handler Sample.env_ok Sample.ev_no_body Sample.w_one =
  (Ok (_response 400 (error_body "Invalid request body: title is required")),
   Sample.w_one) /\
  Update.lambda_handler Sample.env_ok Sample.ev_no_body Sample.w_one =
  (Ok (_response 400 (error_body "Invalid request body: title is required")),
   Sample.w_one).
Proof.
  split; [reflexivity|].
  destruct (missing_body_reads_as_empty_object Sample.env_ok
              [("pathParameters", PDict [("id", PStr "n1")])] Sample.w_one)
    as (_ & _ & _ & Hcreate & Hupdate & _).
  - vm_compute. discriminate.
  - reflexivity.
  - reflexivity.
  - split; [exact Hcreate|]. apply Hupdate. vm_compute. discriminate.
Defined.

(** ** Bodies that are not objects *)

(** C9: with the setting present, when the body is a text that [json.loads]
    decodes to a value that is not a dictionary, Create and (when the path
    identifier is there) Update end with an uncaught [AttributeError]; no
    response, and so no 400, is produced. *)
Theorem non_object_body_escapes {L : PyLib}
    (e : env) (event : pyval) (s : string) (v : pyval) (w : world) :
  configured e ->
  py_get event "body" (PStr "{}") = Ok (PStr s) ->
  json_loads s = Ok v ->
  (forall d, v <> PDict d) ->
  Create.lambda_handler e event w = (Raise AttributeError, w) /\
  (_get_note_id event <> EmptyString ->
   Update.lambda_handler e event w = (Raise AttributeError, w)).
Proof.
  intros Hc Hbody Hloads Hv.
  assert (Hf : request_fields event = Raise AttributeError).
  { unfold request_fields, request_payload. rewrite Hbody. simpl.
    rewrite Hloads. simpl. apply payload_fields_not_dict, Hv. }
  split.
  - unfold Create.lambda_handler.
    rewrite (require_env_configured e Hc), Hf. reflexivity.
  - intros Hid. apply is_empty_false in Hid.
    unfold Update.lambda_handler.
    rewrite (require_env_configured e Hc), Hid, Hf. reflexivity.
Qed.

Lemma non_object_body_escapes_witness :
  json_loads "[]" = Ok (PList []) /\
  Create.lambda_handler Sample.env_ok Sample.ev_list_body Sample.w_one =
  (Raise AttributeError, Sample.w_one) /\
  Update.lambda_handler Sample.env_ok Sample.ev_list_body Sample.w_one =
  (Raise AttributeError, Sample.w_one).
Proof.
  split; [reflexivity|].
  destruct (non_object_body_escapes Sample.env_ok Sample.ev_list_body
              "[]" (PList []) Sample.w_one) as [Hcreate Hupdate].
  - vm_compute. discriminate.
  - reflexivity.
  - reflexivity.
  - intros d. discriminate.
  - split; [exact Hcreate|]. apply Hupdate. vm_compute. discriminate.
Defined.

(** ** Responses *)

(** C2 (the code against the claim): for a request without a body, which
    arrives with [body] set to [None], Create and Update end with an uncaught
    [TypeError] whatever the library instance: no response is produced. *)
Theorem null_body_raises_TypeError {L : PyLib} (w : world) :
  Create.lambda_handler Sample.env_ok Sample.ev_null_body w = (Raise TypeError, w) /\
  Update.lambda_handler Sample.env_ok Sample.ev_null_body w = (Raise TypeError, w).
Proof. split; reflexivity. Qed.

(** Whenever a handler does return, the response is well formed. *)
Lemma response_well_formed {L : PyLib} (code : Z) (d : list (string * pyval)) :
  code ∈ [200; 201; 400; 404; 500] -> well_formed L (_response code (PDict d)).
Proof. intros Hcode. split; [exact Hcode|]. split; [reflexivity|]. eauto. Qed.

Lemma returned_response_well_formed {L : PyLib}
    (e : env) (event : pyval) (w w' : world) (r : response) :
  Create.lambda_handler e event w = (Ok r, w') \/
  ListNotes.lambda_handler e event w = (Ok r, w') \/
  Update.lambda_handler e event w = (Ok r, w') \/
  Delete.lambda_handler e event w = (Ok r, w') ->
  well_formed L r.
Proof.
  unfold Create.lambda_handler, ListNotes.lambda_handler,
    Update.lambda_handler, Delete.lambda_handler, error_body, item_to_py.
  intros Hret.
  repeat match type of Hret with _ \/ _ => destruct Hret as [Hret|Hret] end;
    repeat case_match; simplify_eq;
    apply response_well_formed; set_solver.
Qed.

(** ** Create *)

Lemma put_new_item (e : env) (i t n ts : string) (w : world) :
  put_item e (Create.new_item i t n ts) w =
  let it := Create.new_item i t n ts in
  let w1 := log (PutItem it) w in
  match fault e with
  | Some x => (Raise x, w1)
  | None =>
      if attribute_not_exists "id" (tbl w !! (OWNER, i))
      then (Ok tt, set_tbl (<[(OWNER, i) := it]> (tbl w)) w1)
      else (Raise (ClientError ConditionalCheckFailedException), w1)
  end.
Proof.
  unfold put_item.
  destruct (new_item_attrs i t n ts) as (Ho & Hi & _).
  rewrite Ho, Hi. reflexivity.
Qed.




(** With the setting present, a payload that passes the checks, the table
    service answering and no record under the generated identifier, Create
    returns 201. *)
Lemma create_succeeds {L : PyLib}
    (e : env) (event : pyval) (w : world) (title note : string) :
  configured e -> reachable e ->
  request_fields event = Ok (title, note) ->
  tbl w !! (OWNER, uuid4 e) = None ->
  let it := Create.new_item (uuid4 e) title note (utcnow e) in
  Create.lambda_handler e event w =
  (Ok (_response 201 (PDict [("id", PStr (uuid4 e)); ("title", PStr title);
                             ("note", PStr note)])),
   set_tbl (<[(OWNER, uuid4 e) := it]> (tbl w)) (log (PutItem it) w)).
Proof.
  intros Hc Hr Hf Hnone it. unfold Create.lambda_handler.
  rewrite (require_env_configured e Hc), Hf, put_new_item. simpl.
  rewrite Hr, Hnone. reflexivity.
Qed.

(** C3: a Create that answers 201 on a well-formed table has read a payload
    that is a dictionary, taken [title] and [note] as its fields without the
    whitespace around them (both non-empty), and issued exactly one table
    request, the insertion of one item under the key (OWNER, generated
    identifier), a key under which nothing was stored before; the identifier
    is the one the generator handed out, whatever the event holds; the item's
    six attributes are the fixed owner, that identifier, the two fields, and
    the clock reading in both [created_at] and [updated_at]; the response
    has status 201, the JSON content type, and as its body the encoding of
    the dictionary of [id], [title] and [note]. *)
Theorem create_success_inserts_one_record {L : PyLib}
    (e : env) (event : pyval) (w w' : world) (r : response) :
  store_wf (tbl w) ->
  Create.lambda_handler e event w = (Ok r, w') ->
  statusCode r = 201 ->
  exists d title note,
    let it := Create.new_item (uuid4 e) title note (utcnow e) in
    configured e /\
    request_payload event = Ok (PDict d) /\
    title = field d "title" /\ note = field d "note" /\
    trimmed (py_str (default (PStr EmptyString) (assoc "title" d))) title /\
    trimmed (py_str (default (PStr EmptyString) (assoc "note" d))) note /\
    title <> EmptyString /\ note <> EmptyString /\
    headers r = [("Content-Type", "application/json")] /\
    body r =
    json_dumps (PDict [("id", PStr (uuid4 e)); ("title", PStr title);
                       ("note", PStr note)]) /\
    tbl w !! (OWNER, uuid4 e) = None /\
    tbl w' = <[(OWNER, uuid4 e) := it]> (tbl w) /\
    calls w' = (calls w ++ [PutItem it])%list /\
    dom it = {["owner"; "id"; "title"; "note"; "created_at"; "updated_at"]} /\
    it !! "owner" = Some OWNER /\ it !! "id" = Some (uuid4 e) /\
    it !! "title" = Some title /\ it !! "note" = Some note /\
    it !! "created_at" = Some (utcnow e) /\
    it !! "updated_at" = Some (utcnow e).
Proof.
  intros Hwf Hrun Hstatus. unfold Create.lambda_handler in Hrun.
  unfold _require_env in Hrun.
  destruct (is_empty (TABLE_NAME e)) eqn:Hc.
  { simpl in Hrun. injection Hrun as <- <-. discriminate. }
  apply is_empty_false in Hc.
  destruct (request_fields event) as [[title note]|x] eqn:Hf.
  2:{ destruct (as_ValueError x); simplify_eq. }
  rewrite put_new_item in Hrun. simpl in Hrun.
  destruct (fault e) as [x|] eqn:Hfault.
  { destruct x; simplify_eq; try discriminate. }
  unfold attribute_not_exists in Hrun.
  rewrite (attribute_exists_wf _ _ Hwf) in Hrun.
  destruct (bool_decide (is_Some (tbl w !! (OWNER, uuid4 e)))) eqn:Hex.
  { simpl in Hrun. injection Hrun as <- <-. discriminate. }
  simpl in Hrun. injection Hrun as <- <-.
  apply bool_decide_eq_false in Hex.
  destruct (request_fields_ok _ _ _ Hf) as (d & Hp & Ht & Hn & Htne & Hnne).
  exists d, title, note. simpl.
  destruct (new_item_attrs (uuid4 e) title note (utcnow e))
    as (Ho & Hi & Hti & Hno & Hcr & Hup).
  split; [exact Hc|]. split; [exact Hp|]. split; [exact Ht|]. split; [exact Hn|].
  split; [rewrite Ht; apply strip_trimmed|].
  split; [rewrite Hn; apply strip_trimmed|].
  repeat split; try assumption; try reflexivity.
  destruct (tbl w !! (OWNER, uuid4 e)) eqn:Hk; [|reflexivity].
  destruct Hex. eauto.
Qed.

Lemma create_success_inserts_one_record_witness :
  request_payload Sample.ev_post_padded =
  Ok (PDict [("title", PStr (" A" +:+ Sample.nbsp));
             ("note", PStr (Sample.tab +:+ "B "))]) /\
  exists r w',
    Create.lambda_handler Sample.env_ok Sample.ev_post_padded Sample.w_one =
    (Ok r, w') /\
    statusCode r = 201 /\
    body r =
    json_dumps (PDict [("id", PStr (uuid4 Sample.env_ok)); ("title", PStr "A");
                       ("note", PStr "B")]) /\
    tbl w' !! (OWNER, uuid4 Sample.env_ok) =
    Some (Create.new_item (uuid4 Sample.env_ok) "A" "B" (utcnow Sample.env_ok)).
Proof.
  split; [vm_compute; reflexivity|].
  assert (Hwf : store_wf (tbl Sample.w_one)).
  { intros o i it Hk. simpl in Hk.
    apply lookup_singleton_Some in Hk as [[= <- <-] <-].
    split; vm_compute; reflexivity. }
  assert (Hrun := create_succeeds (L:=Sample.lib) Sample.env_ok
                    Sample.ev_post_padded Sample.w_one "A" "B").
  simpl in Hrun. specialize (Hrun ltac:(vm_compute; discriminate) eq_refl
                               ltac:(vm_compute; reflexivity)
                               ltac:(vm_compute; reflexivity)).
  destruct (create_success_inserts_one_record Sample.env_ok
              Sample.ev_post_padded Sample.w_one _ _ Hwf Hrun eq_refl)
    as (d & title & note & Hall).
  simpl in Hall.
  destruct Hall as (_ & Hp & -> & -> & _ & _ & _ & _ & _ & Hbody & _ & Htbl & _).
  vm_compute in Hp. injection Hp as <-.
  do 2 eexists. split; [exact Hrun|]. split; [reflexivity|].
  split; [exact Hbody|]. rewrite Htbl. apply lookup_insert_eq.
Defined.

(** ** List *)




(** The dictionary an item is handed back as has the item's attributes and
    nothing else. *)
Lemma item_to_py_lookup (it : item) :
  exists d, item_to_py it = PDict d /\
            forall k, assoc k d = PStr <$> (it !! k).
Proof.
  unfold item_to_py. eexists. split; [reflexivity|]. intros k.
  rewrite <- (list_to_map_to_list it) at 2.
  generalize (map_to_list it) as l.
  induction l as [|[k' v] l IH];
    [cbn [fmap list_fmap assoc list_to_map foldr]; rewrite lookup_empty;
     reflexivity|].
  cbn [fmap list_fmap assoc list_to_map foldr fst snd].
  destruct (String.eqb k k') eqn:Hk.
  - apply String.eqb_eq in Hk as ->. rewrite lookup_insert_eq. reflexivity.
  - apply String.eqb_neq in Hk. rewrite lookup_insert_ne by congruence.
    exact IH.
Qed.





(** ** Update *)

(** With the setting present, a path identifier, a payload that passes the
    checks, the table service answering and a record under the identifier
    that carries [id], Update returns 200. *)
Lemma update_succeeds {L : PyLib}
    (e : env) (event : pyval) (w : world) (title note : string) (old : item) :
  configured e -> reachable e ->
  _get_note_id event <> EmptyString ->
  request_fields event = Ok (title, note) ->
  tbl w !! (OWNER, _get_note_id event) = Some old ->
  is_Some (old !! "id") ->
  let k := (OWNER, _get_note_id event) in
  let new :=
    <["updated_at" := utcnow e]> (<["note" := note]> (<["title" := title]> old)) in
  Update.lambda_handler e event w =
  (Ok (_response 200 (item_to_py new)),
   set_tbl (<[k := new]> (tbl w)) (log (UpdateItem k title note (utcnow e)) w)).
Proof.
  intros Hc Hr Hid Hf Hold Hhas k new. apply is_empty_false in Hid.
  unfold Update.lambda_handler.
  rewrite (require_env_configured e Hc), Hid, Hf.
  subst k new. unfold update_item. rewrite Hr, Hold.
  unfold attribute_exists. rewrite bool_decide_eq_true_2 by exact Hhas.
  reflexivity.
Qed.

(** C4, the claim as stated fails: the stored note was last written at
    10:00:00; an Update served by a host whose clock reads 09:59:59.998113
    answers 200 and leaves [updated_at] earlier than it was, not later. *)
Lemma update_may_move_updated_at_back :
  exists r w' old new t0 t1,
    Update.lambda_handler Sample.env_behind Sample.ev_put_n1 Sample.w_one =
    (Ok r, w') /\
    statusCode r = 200 /\
    tbl Sample.w_one !! (OWNER, "n1") = Some old /\
    tbl w' !! (OWNER, "n1") = Some new /\
    old !! "updated_at" = Some t0 /\
    new !! "updated_at" = Some t1 /\
    ~ earlier t0 t1 /\ earlier t1 t0.
Proof.
  do 2 eexists.
  exists Sample.note1.
  exists (<["updated_at" := utcnow Sample.env_behind]>
            (<["note" := "B"]> (<["title" := "A"]> Sample.note1))).
  exists "2024-05-01T10:00:00+00:00", "2024-05-01T09:59:59.998113+00:00".
  split.
  { apply (update_succeeds Sample.env_behind Sample.ev_put_n1 Sample.w_one
             "A" "B" Sample.note1).
    - vm_compute. discriminate.
    - reflexivity.
    - vm_compute. discriminate.
    - vm_compute. reflexivity.
    - vm_compute. reflexivity.
    - exists "n1". vm_compute. reflexivity. }
  split; [reflexivity|].
  split; [vm_compute; reflexivity|].
  split; [simpl; apply lookup_insert_eq|].
  split; [vm_compute; reflexivity|].
  split; [apply lookup_insert_eq|].
  split; [|vm_compute; reflexivity].
  unfold earlier. vm_compute. discriminate.
Qed.

(** C4, amended: an Update that answers 200 found a record under (OWNER,
    path identifier without the whitespace around it) and replaced it by the
    same item with [title] and [note] set to the payload fields without the
    whitespace around them and [updated_at] set to the clock reading; every
    other attribute of the record ([id], [owner], [created_at] among them)
    and every other record are as before.  The new [updated_at] is later
    than the old one exactly when the clock reading is.  The body of the
    response is the encoding of the record as it now is. *)
Theorem update_success_frame {L : PyLib}
    (e : env) (event : pyval) (w w' : world) (r : response) :
  Update.lambda_handler e event w = (Ok r, w') ->
  statusCode r = 200 ->
  exists d old raw,
    let k := (OWNER, _get_note_id event) in
    let title := field d "title" in
    let note := field d "note" in
    let new :=
      <["updated_at" := utcnow e]> (<["note" := note]> (<["title" := title]> old)) in
    request_payload event = Ok (PDict d) /\
    trimmed (py_str (default (PStr EmptyString) (assoc "title" d))) title /\
    trimmed (py_str (default (PStr EmptyString) (assoc "note" d))) note /\
    path_id_of event raw /\ trimmed raw (_get_note_id event) /\
    tbl w !! k = Some old /\
    tbl w' = <[k := new]> (tbl w) /\
    tbl w' !! k = Some new /\
    (forall k', k' <> k -> tbl w' !! k' = tbl w !! k') /\
    (forall a, a <> "title" -> a <> "note" -> a <> "updated_at" ->
               new !! a = old !! a) /\
    new !! "id" = old !! "id" /\
    new !! "owner" = old !! "owner" /\
    new !! "created_at" = old !! "created_at" /\
    new !! "title" = Some title /\
    new !! "note" = Some note /\
    new !! "updated_at" = Some (utcnow e) /\
    (forall t0, old !! "updated_at" = Some t0 ->
                (earlier t0 (utcnow e) <->
                 exists t1, new !! "updated_at" = Some t1 /\ earlier t0 t1)) /\
    calls w' = (calls w ++ [UpdateItem k title note (utcnow e)])%list /\
    headers r = [("Content-Type", "application/json")] /\
    body r = json_dumps (item_to_py new) /\
    (exists dn, item_to_py new = PDict dn /\
                forall a, assoc a dn = PStr <$> (new !! a)).
Proof.
  intros Hrun Hstatus. unfold Update.lambda_handler in Hrun.
  destruct (_require_env e) as [[]|x].
  2:{ destruct (as_ValueError x); simplify_eq. }
  destruct (is_empty (_get_note_id event)) eqn:Hid; [simplify_eq|].
  apply is_empty_false in Hid.
  destruct (request_fields event) as [[title note]|x] eqn:Hf.
  2:{ destruct (as_ValueError x); simplify_eq. }
  destruct (request_fields_ok _ _ _ Hf) as (d & Hp & -> & -> & _ & _).
  unfold update_item in Hrun.
  destruct (fault e) as [x|].
  { destruct x; try destruct (String.eqb _ _); simplify_eq. }
  destruct (tbl w !! (OWNER, _get_note_id event)) as [old|] eqn:Hold.
  2:{ simpl in Hrun. simplify_eq. }
  destruct (attribute_exists "id" (Some old)).
  2:{ simpl in Hrun. simplify_eq. }
  injection Hrun as <- <-.
  destruct (get_note_id_nonempty event Hid) as (raw & Hraw & _ & Htrim).
  exists d, old, raw. simpl.
  assert (Hupd : forall (it : item) t,
             <["updated_at" := t]> it !! "updated_at" = Some t)
    by (intros; apply lookup_insert_eq).
  split; [exact Hp|].
  split; [apply strip_trimmed|]. split; [apply strip_trimmed|].
  split; [exact Hraw|]. split; [exact Htrim|].
  split; [exact Hold|]. split; [reflexivity|].
  split; [apply lookup_insert_eq|].
  split; [intros k' Hk'; apply lookup_insert_ne; congruence|].
  split.
  { intros a Ht Hn Hu. rewrite !lookup_insert_ne by congruence. reflexivity. }
  do 3 (split; [rewrite !lookup_insert_ne by discriminate; reflexivity|]).
  split.
  { do 2 (rewrite lookup_insert_ne by discriminate). apply lookup_insert_eq. }
  split; [rewrite lookup_insert_ne by discriminate; apply lookup_insert_eq|].
  split; [apply Hupd|].
  split.
  { intros t0 _. split.
    - intros Hlt. eexists. split; [apply Hupd|exact Hlt].
    - intros (t1 & Ht1 & Hlt). rewrite Hupd in Ht1. congruence. }
  split; [reflexivity|]. split; [reflexivity|]. split; [reflexivity|].
  apply item_to_py_lookup.
Qed.

Lemma update_success_frame_witness :
  _get_note_id Sample.ev_padded_n1 = "n1" /\
  exists r w' new dn,
    Update.lambda_handler Sample.env_later Sample.ev_padded_n1 Sample.w_one =
    (Ok r, w') /\
    statusCode r = 200 /\
    tbl w' !! (OWNER, "n1") = Some new /\
    new !! "created_at" = Sample.note1 !! "created_at" /\
    new !! "title" = Some "A" /\ new !! "note" = Some "B" /\
    body r = json_dumps (PDict dn) /\
    assoc "title" dn = Some (PStr "A") /\
    assoc "updated_at" dn = Some (PStr (utcnow Sample.env_later)).
Proof.
  split; [vm_compute; reflexivity|].
  assert (Hrun := update_succeeds (L:=Sample.lib) Sample.env_later
                    Sample.ev_padded_n1 Sample.w_one "A" "B" Sample.note1).
  specialize (Hrun ltac:(vm_compute; discriminate) eq_refl
                ltac:(vm_compute; discriminate)
                ltac:(vm_compute; reflexivity)
                ltac:(vm_compute; reflexivity)
                ltac:(exists "n1"; vm_compute; reflexivity)).
  destruct (update_success_frame Sample.env_later Sample.ev_padded_n1
              Sample.w_one _ _ Hrun eq_refl) as (d & old & raw & Hall).
  cbv zeta in Hall.
  destruct Hall as (Hp & _ & _ & _ & _ & Hold & _ & Hnew & _ & _ & _ & _ & Hcr
                    & Hti & Hno & Hup & _ & _ & _ & Hbody & dn & Hdn & Hattrs).
  vm_compute in Hp. injection Hp as <-.
  change (_get_note_id Sample.ev_padded_n1) with "n1" in Hold, Hnew.
  assert (old = Sample.note1) as ->
    by (simpl in Hold; rewrite lookup_singleton_eq in Hold; congruence).
  rewrite Hdn in Hbody.
  do 4 eexists. split; [exact Hrun|]. split; [reflexivity|].
  split; [exact Hnew|]. split; [exact Hcr|].
  split; [exact Hti|]. split; [exact Hno|]. split; [exact Hbody|].
  rewrite !Hattrs, Hti, Hup. split; reflexivity.
Defined.

(** * Further properties of the handlers *)

(** ** How a run of each handler decomposes *)

Lemma store_wf_insert (t : table) (o i : string) (it : item) :
  store_wf t -> it !! "owner" = Some o -> it !! "id" = Some i ->
  store_wf (<[(o, i) := it]> t).
Proof.
  intros Hwf Ho Hi o' i' it' Hk.
  apply lookup_insert_Some in Hk as [[[= <- <-] <-] | [_ Hk]]; [auto|].
  exact (Hwf _ _ _ Hk).
Qed.

Lemma store_wf_delete (t : table) (k : string * string) :
  store_wf t -> store_wf (delete k t).
Proof.
  intros Hwf o i it Hk. apply lookup_delete_Some in Hk as [_ Hk].
  exact (Hwf _ _ _ Hk).
Qed.

Section Runs.
Context {L : PyLib}.

(** What a 201 from Create tells about the run. *)
Lemma create_201_inv (e : env) (event : pyval) (w w' : world) (r : response) :
  store_wf (tbl w) ->
  Create.lambda_handler e event w = (Ok r, w') ->
  statusCode r = 201 ->
  exists title note,
    let it := Create.new_item (uuid4 e) title note (utcnow e) in
    configured e /\ reachable e /\
    request_fields event = Ok (title, note) /\
    tbl w !! (OWNER, uuid4 e) = None /\
    w' = set_tbl (<[(OWNER, uuid4 e) := it]> (tbl w)) (log (PutItem it) w) /\
    r = _response 201 (PDict [("id", PStr (uuid4 e)); ("title", PStr title);
                              ("note", PStr note)]).
Proof.
  intros Hwf Hrun Hstatus. unfold Create.lambda_handler, _require_env in Hrun.
  destruct (is_empty (TABLE_NAME e)) eqn:Hc; [simpl in Hrun; simplify_eq|].
  apply is_empty_false in Hc.
  destruct (request_fields event) as [[title note]|x] eqn:Hf.
  2:{ destruct (as_ValueError x); simplify_eq. }
  rewrite put_new_item in Hrun. simpl in Hrun.
  destruct (fault e) as [x|] eqn:Hfault;
    [destruct x; simplify_eq; discriminate|].
  unfold attribute_not_exists in Hrun.
  rewrite (attribute_exists_wf _ _ Hwf) in Hrun.
  destruct (bool_decide (is_Some (tbl w !! (OWNER, uuid4 e)))) eqn:Hex;
    simpl in Hrun; [simplify_eq|].
  injection Hrun as <- <-.
  apply bool_decide_eq_false in Hex.
  exists title, note. simpl. repeat split; try assumption.
  destruct (tbl w !! (OWNER, uuid4 e)) eqn:Hk; [|reflexivity].
  destruct Hex. eauto.
Qed.

(** What a 200 from Delete tells about the run. *)
Lemma delete_200_inv (e : env) (event : pyval) (w w' : world) (r : response) :
  Delete.lambda_handler e event w = (Ok r, w') ->
  statusCode r = 200 ->
  let k := (OWNER, _get_note_id event) in
  exists old,
    configured e /\ reachable e /\ _get_note_id event <> EmptyString /\
    tbl w !! k = Some old /\ is_Some (old !! "id") /\
    w' = set_tbl (delete k (tbl w)) (log (DeleteItem k) w) /\
    r = _response 200 (PDict [("message", PStr "Note deleted")]).
Proof.
  intros Hrun Hstatus k. unfold Delete.lambda_handler, _require_env in Hrun.
  destruct (is_empty (TABLE_NAME e)) eqn:Hc; [simpl in Hrun; simplify_eq|].
  apply is_empty_false in Hc.
  destruct (is_empty (_get_note_id event)) eqn:Hid; [simplify_eq|].
  apply is_empty_false in Hid.
  unfold delete_item in Hrun.
  destruct (fault e) as [x|] eqn:Hfault.
  { destruct x; try destruct (String.eqb _ _); simplify_eq; discriminate. }
  destruct (attribute_exists "id" (tbl w !! (OWNER, _get_note_id event)))
    eqn:Hex; simpl in Hrun; [|simplify_eq].
  apply attribute_exists_true in Hex as (old & Hold & Hhas).
  injection Hrun as <- <-. exists old. repeat split; assumption.
Qed.

(** Delete on a stored record succeeds. *)
Lemma delete_succeeds (e : env) (event : pyval) (w : world) (old : item) :
  configured e -> reachable e ->
  _get_note_id event <> EmptyString ->
  tbl w !! (OWNER, _get_note_id event) = Some old ->
  is_Some (old !! "id") ->
  let k := (OWNER, _get_note_id event) in
  Delete.lambda_handler e event w =
  (Ok (_response 200 (PDict [("message", PStr "Note deleted")])),
   set_tbl (delete k (tbl w)) (log (DeleteItem k) w)).
Proof.
  intros Hc Hr Hid Hold Hhas k. apply is_empty_false in Hid. subst k.
  unfold Delete.lambda_handler.
  rewrite (require_env_configured e Hc), Hid.
  unfold delete_item. rewrite Hr, Hold.
  unfold attribute_exists. rewrite bool_decide_eq_true_2 by exact Hhas.
  reflexivity.
Qed.

(** Delete and Update on a key that holds nothing. *)
Lemma delete_absent (e : env) (event : pyval) (w : world) :
  configured e -> reachable e ->
  _get_note_id event <> EmptyString ->
  tbl w !! (OWNER, _get_note_id event) = None ->
  Delete.lambda_handler e event w =
  (Ok (_response 404 (error_body "Note not found")),
   log (DeleteItem (OWNER, _get_note_id event)) w).
Proof.
  intros Hc Hr Hid Hnone. apply is_empty_false in Hid.
  unfold Delete.lambda_handler.
  rewrite (require_env_configured e Hc), Hid.
  unfold delete_item. rewrite Hr, Hnone. reflexivity.
Qed.

Lemma update_absent (e : env) (event : pyval) (w : world) (title note : string) :
  configured e -> reachable e ->
  _get_note_id event <> EmptyString ->
  request_fields event = Ok (title, note) ->
  tbl w !! (OWNER, _get_note_id event) = None ->
  Update.lambda_handler e event w =
  (Ok (_response 404 (error_body "Note not found")),
   log (UpdateItem (OWNER, _get_note_id event) title note (utcnow e)) w).
Proof.
  intros Hc Hr Hid Hf Hnone. apply is_empty_false in Hid.
  unfold Update.lambda_handler.
  rewrite (require_env_configured e Hc), Hid, Hf.
  unfold update_item. rewrite Hr, Hnone. reflexivity.
Qed.


End Runs.

(** Facts about the sample data, used to run the statements below. *)
Lemma sample_configured : configured Sample.env_ok /\ configured Sample.env_later.
Proof. split; vm_compute; discriminate. Qed.

Lemma sample_store_wf : store_wf (tbl Sample.w_one) /\ store_wf (tbl Sample.w_empty).
Proof.
  split; intros o i it Hk; simpl in Hk.
  - apply lookup_singleton_Some in Hk as [[= <- <-] <-].
    split; vm_compute; reflexivity.
  - rewrite lookup_empty in Hk. discriminate.
Qed.

(** ** Delete *)

(** X1: a Delete that answers 200 found a record under (OWNER, path
    identifier without the whitespace around it) and removed exactly that
    one: the key holds nothing afterwards, every other key holds what it
    held, the table has one record less, the only table request is the
    conditional delete of that key, and the body is the encoding of the
    fixed confirmation. *)
Theorem delete_success_removes_one_record {L : PyLib}
    (e : env) (event : pyval) (w w' : world) (r : response) :
  Delete.lambda_handler e event w = (Ok r, w') ->
  statusCode r = 200 ->
  let k := (OWNER, _get_note_id event) in
  (exists raw, path_id_of event raw /\ trimmed raw (_get_note_id event)) /\
  is_Some (tbl w !! k) /\
  tbl w' = delete k (tbl w) /\
  tbl w' !! k = None /\
  (forall k', k' <> k -> tbl w' !! k' = tbl w !! k') /\
  size (tbl w) = S (size (tbl w')) /\
  calls w' = (calls w ++ [DeleteItem k])%list /\
  body r = json_dumps (PDict [("message", PStr "Note deleted")]).
Proof.
  intros Hrun Hstatus k.
  destruct (delete_200_inv e event w w' r Hrun Hstatus)
    as (old & _ & _ & Hid & Hold & _ & -> & ->).
  subst k. simpl.
  split.
  { destruct (get_note_id_nonempty event Hid) as (raw & Hraw & _ & Ht). eauto. }
  split; [eauto|]. split; [reflexivity|].
  split; [apply lookup_delete_eq|].
  split; [intros k' Hk'; apply lookup_delete_ne; congruence|].
  split; [|split; reflexivity].
  rewrite map_size_delete_Some by eauto.
  assert (size (tbl w) <> 0%nat) as Hne.
  { intros Hz. apply map_size_empty_iff in Hz. rewrite Hz, lookup_empty in Hold.
    discriminate. }
  destruct (size (tbl w)); [congruence|reflexivity].
Qed.

Lemma delete_success_removes_one_record_witness :
  _get_note_id Sample.ev_padded_n1 = "n1" /\
  exists r w',
    Delete.lambda_handler Sample.env_ok Sample.ev_padded_n1 Sample.w_one =
    (Ok r, w') /\
    statusCode r = 200 /\ tbl w' = delete (OWNER, "n1") (tbl Sample.w_one).
Proof.
  split; [vm_compute; reflexivity|].
  assert (Hrun := delete_succeeds (L:=Sample.lib) Sample.env_ok
                    Sample.ev_padded_n1 Sample.w_one
                    Sample.note1 (proj1 sample_configured) eq_refl
                    ltac:(vm_compute; discriminate)
                    ltac:(vm_compute; reflexivity)
                    ltac:(exists "n1"; vm_compute; reflexivity)).
  cbv zeta in Hrun.
  destruct (delete_success_removes_one_record Sample.env_ok Sample.ev_padded_n1
              Sample.w_one _ _ Hrun eq_refl) as (_ & _ & Htbl & _).
  do 2 eexists. split; [exact Hrun|]. split; [reflexivity|exact Htbl].
Defined.

(** X2: once Delete has answered 200 for a request, a later Delete of the
    same request, and a later Update of it with a payload that passes the
    checks, answer 404 and leave the table as the first Delete left it
    (setting present, table service answering). *)
Theorem delete_is_terminal {L : PyLib}
    (e e2 : env) (event : pyval) (w w1 : world) (r : response) :
  Delete.lambda_handler e event w = (Ok r, w1) ->
  statusCode r = 200 ->
  configured e2 -> reachable e2 ->
  let r404 := _response 404 (error_body "Note not found") in
  (exists w2, Delete.lambda_handler e2 event w1 = (Ok r404, w2) /\
              tbl w2 = tbl w1) /\
  (forall title note, request_fields event = Ok (title, note) ->
     exists w2, Update.lambda_handler e2 event w1 = (Ok r404, w2) /\
                tbl w2 = tbl w1).
Proof.
  intros Hrun Hstatus Hc2 Hr2 r404.
  destruct (delete_200_inv e event w w1 r Hrun Hstatus)
    as (old & _ & _ & Hid & _ & _ & -> & _).
  assert (Hgone : tbl (set_tbl (delete (OWNER, _get_note_id event) (tbl w))
                         (log (DeleteItem (OWNER, _get_note_id event)) w))
                    !! (OWNER, _get_note_id event) = None)
    by apply lookup_delete_eq.
  split.
  - eexists. split; [apply (delete_absent e2 event _ Hc2 Hr2 Hid Hgone)|].
    reflexivity.
  - intros title note Hf. eexists.
    split; [apply (update_absent e2 event _ title note Hc2 Hr2 Hid Hf Hgone)|].
    reflexivity.
Qed.

Lemma delete_is_terminal_witness :
  exists r w1 w2,
    Delete.lambda_handler Sample.env_ok Sample.ev_put_n1 Sample.w_one = (Ok r, w1) /\
    statusCode r = 200 /\
    Delete.lambda_handler Sample.env_later Sample.ev_put_n1 w1 =
    (Ok (_response 404 (error_body "Note not found")), w2).
Proof.
  assert (Hrun := delete_succeeds (L:=Sample.lib) Sample.env_ok Sample.ev_put_n1 Sample.w_one
                    Sample.note1 (proj1 sample_configured) eq_refl
                    ltac:(vm_compute; discriminate)
                    ltac:(vm_compute; reflexivity)
                    ltac:(exists "n1"; vm_compute; reflexivity)).
  simpl in Hrun.
  destruct (delete_is_terminal Sample.env_ok Sample.env_later Sample.ev_put_n1
              Sample.w_one _ _ Hrun eq_refl (proj2 sample_configured) eq_refl)
    as [(w2 & Hagain & _) _].
  do 3 eexists. split; [exact Hrun|]. split; [reflexivity|exact Hagain].
Defined.

(** ** Create followed by the other handlers *)



(** X4: after a Create that answered 201 (on a well-formed table), a Delete
    whose path identifier is the generated identifier answers 200 and the
    table is again the table before the Create (setting present, table
    service answering). *)
Theorem create_then_delete_restores_table {L : PyLib}
    (e e2 : env) (event ev2 : pyval) (w w1 : world) (r : response) :
  store_wf (tbl w) ->
  Create.lambda_handler e event w = (Ok r, w1) ->
  statusCode r = 201 ->
  configured e2 -> reachable e2 ->
  _get_note_id ev2 = uuid4 e -> uuid4 e <> EmptyString ->
  exists w2,
    Delete.lambda_handler e2 ev2 w1 =
    (Ok (_response 200 (PDict [("message", PStr "Note deleted")])), w2) /\
    tbl w2 = tbl w.
Proof.
  intros Hwf Hrun Hstatus Hc2 Hr2 Hid Hne.
  destruct (create_201_inv e event w w1 r Hwf Hrun Hstatus)
    as (title & note & _ & _ & _ & Hfree & -> & _).
  pose (it := Create.new_item (uuid4 e) title note (utcnow e)).
  eexists. split.
  - apply (delete_succeeds e2 ev2 _ it Hc2 Hr2).
    + rewrite Hid. exact Hne.
    + rewrite Hid. apply lookup_insert_eq.
    + exists (uuid4 e). apply new_item_attrs.
  - simpl. rewrite Hid, delete_insert_eq. apply delete_id. exact Hfree.
Qed.

Lemma create_then_delete_restores_table_witness :
  exists r w1 w2,
    Create.lambda_handler Sample.env_ok Sample.ev_post_AB Sample.w_one = (Ok r, w1) /\
    statusCode r = 201 /\
    Delete.lambda_handler Sample.env_later Sample.ev_created w1 =
    (Ok (_response 200 (PDict [("message", PStr "Note deleted")])), w2) /\
    tbl w2 = tbl Sample.w_one.
Proof.
  assert (Hrun := create_succeeds (L:=Sample.lib) Sample.env_ok Sample.ev_post_AB Sample.w_one
                    "A" "B" (proj1 sample_configured) eq_refl
                    ltac:(vm_compute; reflexivity)
                    ltac:(vm_compute; reflexivity)).
  simpl in Hrun.
  destruct (create_then_delete_restores_table Sample.env_ok Sample.env_later
              Sample.ev_post_AB Sample.ev_created Sample.w_one _ _
              (proj1 sample_store_wf) Hrun eq_refl
              (proj2 sample_configured) eq_refl)
    as (w2 & Hdel & Htbl).
  - vm_compute. reflexivity.
  - vm_compute. discriminate.
  - do 3 eexists. split; [exact Hrun|]. split; [reflexivity|].
    split; [exact Hdel|exact Htbl].
Defined.

(** ** What every run keeps *)

Lemma put_item_wf (e : env) (it : item) (w : world) :
  store_wf (tbl w) -> store_wf (tbl (put_item e it w).2).
Proof.
  intros Hwf. unfold put_item. repeat case_match; simpl; try exact Hwf.
  apply store_wf_insert; assumption.
Qed.

Lemma update_item_wf (e : env) (k : string * string) (t n ts : string) (w : world) :
  store_wf (tbl w) -> store_wf (tbl (update_item e k t n ts w).2).
Proof.
  intros Hwf. unfold update_item. destruct k as [o i].
  destruct (fault e); [exact Hwf|].
  destruct (tbl w !! (o, i)) as [old|] eqn:Hold; [|exact Hwf].
  destruct (attribute_exists "id" (Some old)); [|exact Hwf].
  destruct (Hwf o i old Hold) as [Ho Hi]. simpl.
  apply store_wf_insert; [exact Hwf| |];
    rewrite !lookup_insert_ne by discriminate; assumption.
Qed.

Lemma delete_item_wf (e : env) (k : string * string) (w : world) :
  store_wf (tbl w) -> store_wf (tbl (delete_item e k w).2).
Proof.
  intros Hwf. unfold delete_item. repeat case_match; simpl; try exact Hwf.
  apply store_wf_delete, Hwf.
Qed.

(** X5: each of the four handlers keeps the table well formed: after any
    run, whatever its outcome, every stored item still carries the owner and
    the identifier of the key it is stored under. *)
Theorem handlers_preserve_store_wf {L : PyLib}
    (e : env) (event : pyval) (w : world) :
  store_wf (tbl w) ->
  store_wf (tbl (Create.lambda_handler e event w).2) /\
  store_wf (tbl (ListNotes.lambda_handler e event w).2) /\
  store_wf (tbl (Update.lambda_handler e event w).2) /\
  store_wf (tbl (Delete.lambda_handler e event w).2).
Proof.
  intros Hwf. split; [|split; [|split]].
  - unfold Create.lambda_handler.
    destruct (_require_env e) as [[]|x]; [|destruct (as_ValueError x); exact Hwf].
    destruct (request_fields event) as [[title note]|x];
      [|destruct (as_ValueError x); exact Hwf].
    simpl.
    pose proof (put_item_wf e (Create.new_item (uuid4 e) title note (utcnow e))
                  w Hwf) as Hput.
    destruct (put_item e _ w) as [[[]|x] w0]; simpl in Hput;
      [exact Hput|destruct x; exact Hput].
  - unfold ListNotes.lambda_handler, query.
    repeat case_match; simplify_eq; simpl; exact Hwf.
  - unfold Update.lambda_handler.
    destruct (_require_env e) as [[]|x]; [|destruct (as_ValueError x); exact Hwf].
    destruct (is_empty (_get_note_id event)); [exact Hwf|].
    destruct (request_fields event) as [[title note]|x];
      [|destruct (as_ValueError x); exact Hwf].
    simpl.
    pose proof (update_item_wf e (OWNER, _get_note_id event) title note
                  (utcnow e) w Hwf) as Hupd.
    destruct (update_item e _ title note _ w) as [[attrs|x] w0]; simpl in Hupd;
      [exact Hupd|destruct x; try exact Hupd].
    destruct (String.eqb _ _); exact Hupd.
  - unfold Delete.lambda_handler.
    destruct (_require_env e) as [[]|x]; [|destruct (as_ValueError x); exact Hwf].
    destruct (is_empty (_get_note_id event)); [exact Hwf|].
    pose proof (delete_item_wf e (OWNER, _get_note_id event) w Hwf) as Hdel.
    destruct (delete_item e _ w) as [[[]|x] w0]; simpl in Hdel;
      [exact Hdel|destruct x; try exact Hdel].
    destruct (String.eqb _ _); exact Hdel.
Qed.

Lemma handlers_preserve_store_wf_witness :
  store_wf (tbl (Create.lambda_handler Sample.env_ok Sample.ev_post_AB
                   Sample.w_one).2) /\
  store_wf (tbl (Update.lambda_handler Sample.env_later Sample.ev_put_n1
                   Sample.w_one).2).
Proof.
  split.
  - apply (handlers_preserve_store_wf Sample.env_ok Sample.ev_post_AB
             Sample.w_one (proj1 sample_store_wf)).
  - apply (handlers_preserve_store_wf Sample.env_later Sample.ev_put_n1
             Sample.w_one (proj1 sample_store_wf)).
Defined.

(** X6: no handler issues more than one table request in a run, and the one
    it may issue is fixed by the handler: Create a conditional put of a new
    item under the generated identifier, List a query of the fixed owner's
    partition, Update and Delete a conditional request on the key (OWNER,
    identifier), where the identifier is the path identifier of the event
    without the whitespace around it; when the path identifier is blank,
    Update and Delete issue no request. *)
Theorem at_most_one_table_request {L : PyLib}
    (e : env) (event : pyval) (w : world) :
  (calls (Create.lambda_handler e event w).2 = calls w \/
   exists title note,
     calls (Create.lambda_handler e event w).2 =
     (calls w ++ [PutItem (Create.new_item (uuid4 e) title note (utcnow e))])%list) /\
  (calls (ListNotes.lambda_handler e event w).2 = calls w \/
   calls (ListNotes.lambda_handler e event w).2 =
   (calls w ++ [Query OWNER])%list) /\
  (calls (Update.lambda_handler e event w).2 = calls w \/
   exists title note,
     calls (Update.lambda_handler e event w).2 =
     (calls w ++ [UpdateItem (OWNER, _get_note_id event) title note (utcnow e)])%list) /\
  (calls (Delete.lambda_handler e event w).2 = calls w \/
   calls (Delete.lambda_handler e event w).2 =
   (calls w ++ [DeleteItem (OWNER, _get_note_id event)])%list) /\
  (forall raw, path_id_of event raw ->
     trimmed raw (_get_note_id event) /\
     (blank raw ->
      calls (Update.lambda_handler e event w).2 = calls w /\
      calls (Delete.lambda_handler e event w).2 = calls w)).
Proof.
  split; [|split; [|split; [|split]]].
  - unfold Create.lambda_handler.
    destruct (_require_env e) as [[]|x]; [|destruct (as_ValueError x); auto].
    destruct (request_fields event) as [[title note]|x];
      [|destruct (as_ValueError x); auto].
    right. exists title, note. rewrite put_new_item. simpl.
    repeat case_match; simplify_eq; reflexivity.
  - unfold ListNotes.lambda_handler, query.
    destruct (_require_env e) as [[]|x]; [|destruct (as_ValueError x); auto].
    right. repeat case_match; simplify_eq; reflexivity.
  - unfold Update.lambda_handler.
    destruct (_require_env e) as [[]|x]; [|destruct (as_ValueError x); auto].
    destruct (is_empty (_get_note_id event)); [auto|].
    destruct (request_fields event) as [[title note]|x];
      [|destruct (as_ValueError x); auto].
    right. exists title, note. unfold update_item.
    repeat case_match; simplify_eq; reflexivity.
  - unfold Delete.lambda_handler.
    destruct (_require_env e) as [[]|x]; [|destruct (as_ValueError x); auto].
    destruct (is_empty (_get_note_id event)); [auto|].
    right. unfold delete_item.
    repeat case_match; simplify_eq; reflexivity.
  - intros raw Hraw.
    destruct (get_note_id_of_path event raw Hraw) as [Heq Ht].
    split; [exact Ht|]. intros Hblank.
    apply strip_empty_iff in Hblank. rewrite <- Heq in Hblank.
    unfold Update.lambda_handler, Delete.lambda_handler. rewrite Hblank.
    destruct (_require_env e) as [[]|x]; [simpl; auto|].
    destruct (as_ValueError x); auto.
Qed.

Lemma at_most_one_table_request_witness :
  path_id_of Sample.ev_padded_n1 Sample.padded_n1 /\
  trimmed Sample.padded_n1 "n1" /\
  calls (Delete.lambda_handler Sample.env_ok Sample.ev_padded_n1 Sample.w_one).2 =
  [DeleteItem (OWNER, "n1")] /\
  path_id_of Sample.ev_blank_id Sample.nbsp /\
  calls (Delete.lambda_handler Sample.env_ok Sample.ev_blank_id Sample.w_one).2 = [].
Proof.
  assert (Hraw : path_id_of Sample.ev_padded_n1 Sample.padded_n1).
  { do 2 eexists. split; [reflexivity|]. split; reflexivity. }
  assert (Hraw' : path_id_of Sample.ev_blank_id Sample.nbsp).
  { do 2 eexists. split; [reflexivity|]. split; reflexivity. }
  assert (Hn : _get_note_id Sample.ev_padded_n1 = "n1")
    by (vm_compute; reflexivity).
  destruct (at_most_one_table_request Sample.env_ok Sample.ev_padded_n1
              Sample.w_one) as (_ & _ & _ & Hdelete & Hid).
  destruct (Hid _ Hraw) as [Ht _]. rewrite Hn in Ht, Hdelete.
  destruct (at_most_one_table_request Sample.env_ok Sample.ev_blank_id
              Sample.w_one) as (_ & _ & _ & _ & Hid').
  destruct (Hid' _ Hraw') as [_ Hnone].
  split; [exact Hraw|]. split; [exact Ht|]. split.
  - destruct Hdelete as [Hno|Hyes]; [|exact Hyes].
    vm_compute in Hno. discriminate.
  - split; [exact Hraw'|].
    apply Hnone, strip_empty_iff. vm_compute. reflexivity.
Defined.



(** ** Bodies that cannot be decoded *)



(** ** The setting *)

(** X9: a setting that is there but consists of whitespace characters only
    counts as missing: each of the four handlers answers 500 with the fixed
    message and hands back the world it was given. *)
Theorem blank_table_name_is_500 {L : PyLib}
    (e : env) (event : pyval) (w : world) (s : string) :
  NOTES_TABLE_NAME e = Some s ->
  blank s ->
  let r := _response 500
             (error_body "NOTES_TABLE_NAME environment variable is required") in
  statusCode r = 500 /\
  body r =
  json_dumps
    (PDict [("error", PStr "NOTES_TABLE_NAME environment variable is required")]) /\
  Create.lambda_handler e event w = (Ok r, w) /\
  ListNotes.lambda_handler e event w = (Ok r, w) /\
  Update.lambda_handler e event w = (Ok r, w) /\
  Delete.lambda_handler e event w = (Ok r, w).
Proof.
  intros Hvar Hblank r.
  assert (Hunset : TABLE_NAME e = EmptyString).
  { unfold TABLE_NAME. rewrite Hvar. apply strip_empty_iff, Hblank. }
  unfold Create.lambda_handler, ListNotes.lambda_handler,
    Update.lambda_handler, Delete.lambda_handler.
  rewrite (require_env_unset e Hunset). simpl. auto 10.
Qed.

Lemma blank_table_name_is_500_witness :
  blank (" " +:+ Sample.nbsp +:+ Sample.em_space) /\
  ListNotes.lambda_handler Sample.env_blank (PDict []) Sample.w_one =
  (Ok (_response 500
         (error_body "NOTES_TABLE_NAME environment variable is required")),
   Sample.w_one).
Proof.
  assert (Hblank : blank (" " +:+ Sample.nbsp +:+ Sample.em_space)).
  { apply strip_empty_iff. vm_compute. reflexivity. }
  split; [exact Hblank|].
  apply (blank_table_name_is_500 Sample.env_blank (PDict []) Sample.w_one
           (" " +:+ Sample.nbsp +:+ Sample.em_space) eq_refl Hblank).
Defined.

(** ** Errors of the table service *)





(** ** The path identifier *)

(** X12: the identifier Update and Delete work with is the path identifier
    of the event without the whitespace around it, whatever Unicode
    whitespace that is; it is the empty string exactly when the path
    identifier is blank; and when the event carries no path identifier that
    is a string (the event is no dictionary, [pathParameters] is null or no
    dictionary, [id] is missing or no string) it is the empty string as
    well: [_get_note_id] never raises. *)
Theorem get_note_id_trims_path_id (event : pyval) :
  (forall raw, path_id_of event raw ->
     _get_note_id event = strip raw /\
     trimmed raw (_get_note_id event) /\
     (_get_note_id event = EmptyString <-> blank raw)) /\
  ((forall raw, ~ path_id_of event raw) -> _get_note_id event = EmptyString).
Proof.
  split.
  - intros raw Hraw. destruct (get_note_id_of_path event raw Hraw) as [Heq Ht].
    split; [exact Heq|]. split; [exact Ht|].
    rewrite Heq. apply strip_empty_iff.
  - intros Hnone. destruct (_get_note_id event) as [|c s] eqn:Hid; [reflexivity|].
    destruct (get_note_id_nonempty event) as (raw & Hraw & _);
      [rewrite Hid; discriminate|].
    destruct (Hnone raw Hraw).
Qed.

Lemma get_note_id_trims_path_id_witness :
  path_id_of Sample.ev_padded_n1 Sample.padded_n1 /\
  _get_note_id Sample.ev_padded_n1 = "n1" /\
  _get_note_id Sample.ev_null_params = EmptyString.
Proof.
  assert (Hraw : path_id_of Sample.ev_padded_n1 Sample.padded_n1).
  { do 2 eexists. split; [reflexivity|]. split; reflexivity. }
  split; [exact Hraw|]. split.
  - destruct (get_note_id_trims_path_id Sample.ev_padded_n1) as [Hid _].
    destruct (Hid _ Hraw) as [Heq _]. rewrite Heq. vm_compute. reflexivity.
  - apply (get_note_id_trims_path_id Sample.ev_null_params).
    intros raw (ev & ps & Hev & Hps & _). injection Hev as <-.
    vm_compute in Hps. discriminate.
Defined.

(** ** What Create reads *)

(** X13: Create reads nothing of the event but the [title] and [note] of its
    payload: two events whose payloads are dictionaries with the same trimmed
    [title] and the same trimmed [note] get the same outcome and leave the
    same world, whatever else the payloads (an [id], an [owner], timestamps)
    or the events (path parameters) hold. *)
Theorem create_reads_only_title_and_note {L : PyLib}
    (e : env) (ev1 ev2 : pyval) (d1 d2 : list (string * pyval)) (w : world) :
  request_payload ev1 = Ok (PDict d1) ->
  request_payload ev2 = Ok (PDict d2) ->
  field d1 "title" = field d2 "title" ->
  field d1 "note" = field d2 "note" ->
  Create.lambda_handler e ev1 w = Create.lambda_handler e ev2 w.
Proof.
  intros Hp1 Hp2 Ht Hn.
  assert (Hf : request_fields ev1 = request_fields ev2).
  { unfold request_fields. rewrite Hp1, Hp2. simpl.
    rewrite !payload_fields_dict, Ht, Hn. reflexivity. }
  unfold Create.lambda_handler. rewrite Hf. reflexivity.
Qed.

Lemma create_reads_only_title_and_note_witness :
  Create.lambda_handler Sample.env_ok Sample.ev_post_AB Sample.w_one =
  Create.lambda_handler Sample.env_ok Sample.ev_put_n1 Sample.w_one.
Proof.
  apply (create_reads_only_title_and_note Sample.env_ok Sample.ev_post_AB
           Sample.ev_put_n1
           [("title", PStr "A"); ("note", PStr "B")]
           [("title", PStr "A"); ("note", PStr "B")] Sample.w_one).
  - vm_compute. reflexivity.
  - vm_compute. reflexivity.
  - reflexivity.
  - reflexivity.
Defined.

(** ** Two Creates *)

(** X14: when two Creates in a row (starting from a well-formed table) both
    answer 201, their identifiers differ, both records are stored, the first
    record is as the first Create left it, and the table holds two records
    more than at the start. *)
Theorem two_creates_two_records {L : PyLib}
    (e1 e2 : env) (ev1 ev2 : pyval) (w w1 w2 : world) (r1 r2 : response) :
  store_wf (tbl w) ->
  Create.lambda_handler e1 ev1 w = (Ok r1, w1) -> statusCode r1 = 201 ->
  Create.lambda_handler e2 ev2 w1 = (Ok r2, w2) -> statusCode r2 = 201 ->
  uuid4 e1 <> uuid4 e2 /\
  is_Some (tbl w2 !! (OWNER, uuid4 e1)) /\
  is_Some (tbl w2 !! (OWNER, uuid4 e2)) /\
  tbl w2 !! (OWNER, uuid4 e1) = tbl w1 !! (OWNER, uuid4 e1) /\
  size (tbl w2) = S (S (size (tbl w))).
Proof.
  intros Hwf Hrun1 Hs1 Hrun2 Hs2.
  destruct (create_201_inv e1 ev1 w w1 r1 Hwf Hrun1 Hs1)
    as (t1 & n1 & _ & _ & _ & Hfree1 & -> & _).
  assert (Hwf1 : store_wf (tbl (set_tbl
             (<[(OWNER, uuid4 e1) := Create.new_item (uuid4 e1) t1 n1 (utcnow e1)]>
                (tbl w))
             (log (PutItem (Create.new_item (uuid4 e1) t1 n1 (utcnow e1))) w)))).
  { simpl. apply store_wf_insert; [exact Hwf| |]; apply new_item_attrs. }
  destruct (create_201_inv e2 ev2 _ w2 r2 Hwf1 Hrun2 Hs2)
    as (t2 & n2 & _ & _ & _ & Hfree2 & -> & _).
  simpl in Hfree2 |- *.
  assert (Hne : uuid4 e1 <> uuid4 e2).
  { intros Heq. rewrite <- Heq, lookup_insert_eq in Hfree2. discriminate. }
  split; [exact Hne|].
  assert (Hk : (OWNER, uuid4 e2) <> (OWNER, uuid4 e1)) by congruence.
  split; [rewrite lookup_insert_ne by exact Hk; rewrite lookup_insert_eq; eauto|].
  split; [rewrite lookup_insert_eq; eauto|].
  split; [apply lookup_insert_ne; exact Hk|].
  rewrite map_size_insert_None by exact Hfree2.
  rewrite map_size_insert_None by exact Hfree1. reflexivity.
Qed.

Lemma two_creates_two_records_witness :
  exists r1 w1 r2 w2,
    Create.lambda_handler Sample.env_ok Sample.ev_post_AB Sample.w_one = (Ok r1, w1) /\
    Create.lambda_handler Sample.env_later Sample.ev_post_AB w1 = (Ok r2, w2) /\
    size (tbl w2) = S (S (size (tbl Sample.w_one))).
Proof.
  assert (Hrun1 := create_succeeds (L:=Sample.lib) Sample.env_ok
                     Sample.ev_post_AB Sample.w_one "A" "B"
                     (proj1 sample_configured) eq_refl
                     ltac:(vm_compute; reflexivity)
                     ltac:(vm_compute; reflexivity)).
  simpl in Hrun1.
  assert (Hrun2 := create_succeeds (L:=Sample.lib) Sample.env_later
                     Sample.ev_post_AB
                     (set_tbl
                        (<[(OWNER, uuid4 Sample.env_ok) :=
                             Create.new_item (uuid4 Sample.env_ok) "A" "B"
                               (utcnow Sample.env_ok)]> (tbl Sample.w_one))
                        (log (PutItem (Create.new_item (uuid4 Sample.env_ok)
                                         "A" "B" (utcnow Sample.env_ok)))
                             Sample.w_one))
                     "A" "B" (proj2 sample_configured) eq_refl
                     ltac:(vm_compute; reflexivity)
                     ltac:(vm_compute; reflexivity)).
  simpl in Hrun2.
  destruct (two_creates_two_records Sample.env_ok Sample.env_later
              Sample.ev_post_AB Sample.ev_post_AB Sample.w_one _ _ _ _
              (proj1 sample_store_wf) Hrun1 eq_refl Hrun2 eq_refl)
    as (_ & _ & _ & _ & Hsize).
  do 4 eexists. split; [exact Hrun1|]. split; [exact Hrun2|exact Hsize].
Defined.

(** ** Create followed by Update *)

(** X15: after a Create that answered 201 (on a well-formed table), an
    Update whose path identifier is the generated identifier and whose
    payload passes the checks answers 200 with the stored record: [id],
    [owner] and [created_at] are those the Create wrote, [title] and [note]
    those of the Update, [updated_at] the Update's clock reading; the number
    of records is unchanged (setting present, table service answering). *)
Theorem create_then_update_keeps_created_at {L : PyLib}
    (e e2 : env) (event ev2 : pyval) (w w1 : world) (r : response)
    (title2 note2 : string) :
  store_wf (tbl w) ->
  Create.lambda_handler e event w = (Ok r, w1) ->
  statusCode r = 201 ->
  configured e2 -> reachable e2 ->
  _get_note_id ev2 = uuid4 e -> uuid4 e <> EmptyString ->
  request_fields ev2 = Ok (title2, note2) ->
  exists new w2,
    Update.lambda_handler e2 ev2 w1 = (Ok (_response 200 (item_to_py new)), w2) /\
    tbl w2 !! (OWNER, uuid4 e) = Some new /\
    new !! "owner" = Some OWNER /\
    new !! "id" = Some (uuid4 e) /\
    new !! "created_at" = Some (utcnow e) /\
    new !! "updated_at" = Some (utcnow e2) /\
    new !! "title" = Some title2 /\
    new !! "note" = Some note2 /\
    size (tbl w2) = size (tbl w1).
Proof.
  intros Hwf Hrun Hstatus Hc2 Hr2 Hid Hne Hf2.
  destruct (create_201_inv e event w w1 r Hwf Hrun Hstatus)
    as (title & note & _ & _ & _ & Hfree & -> & _).
  pose (it := Create.new_item (uuid4 e) title note (utcnow e)).
  destruct (new_item_attrs (uuid4 e) title note (utcnow e))
    as (Ho & Hi & _ & _ & Hcr & _). fold it in Ho, Hi, Hcr. simpl in Ho, Hi, Hcr.
  assert (Hstored : tbl (set_tbl (<[(OWNER, uuid4 e) := it]> (tbl w))
                           (log (PutItem it) w))
                      !! (OWNER, _get_note_id ev2) = Some it).
  { rewrite Hid. apply lookup_insert_eq. }
  assert (Hrun2 := update_succeeds e2 ev2 _ title2 note2 it Hc2 Hr2
                     ltac:(rewrite Hid; exact Hne) Hf2 Hstored
                     ltac:(eauto)).
  simpl in Hrun2. rewrite Hid in Hrun2.
  do 2 eexists. split; [exact Hrun2|]. simpl.
  split; [apply lookup_insert_eq|].
  do 3 (split; [rewrite !lookup_insert_ne by discriminate; assumption|]).
  split; [apply lookup_insert_eq|].
  split.
  { do 2 (rewrite lookup_insert_ne by discriminate). apply lookup_insert_eq. }
  split; [rewrite lookup_insert_ne by discriminate; apply lookup_insert_eq|].
  apply map_size_insert_Some. rewrite lookup_insert_eq. eauto.
Qed.

Lemma create_then_update_keeps_created_at_witness :
  exists r w1 new w2,
    Create.lambda_handler Sample.env_ok Sample.ev_post_AB Sample.w_one = (Ok r, w1) /\
    Update.lambda_handler Sample.env_later Sample.ev_created w1 =
    (Ok (_response 200 (item_to_py new)), w2) /\
    new !! "created_at" = Some (utcnow Sample.env_ok) /\
    new !! "updated_at" = Some (utcnow Sample.env_later).
Proof.
  assert (Hrun := create_succeeds (L:=Sample.lib) Sample.env_ok
                    Sample.ev_post_AB Sample.w_one "A" "B"
                    (proj1 sample_configured) eq_refl
                    ltac:(vm_compute; reflexivity)
                    ltac:(vm_compute; reflexivity)).
  simpl in Hrun.
  destruct (create_then_update_keeps_created_at Sample.env_ok Sample.env_later
              Sample.ev_post_AB Sample.ev_created Sample.w_one _ _ "A" "B"
              (proj1 sample_store_wf) Hrun eq_refl
              (proj2 sample_configured) eq_refl)
    as (new & w2 & Hupd & _ & _ & _ & Hcr & Hup & _).
  - vm_compute. reflexivity.
  - vm_compute. discriminate.
  - vm_compute. reflexivity.
  - do 4 eexists. split; [exact Hrun|]. split; [exact Hupd|].
    split; [exact Hcr|exact Hup].
Defined.

(** ** Outcomes *)

(** X16: the status codes each handler can answer with: Create 201, 400 or
    500 (never 404); List 200 or 500; Update and Delete 200, 400, 404 or
    500. *)
Theorem status_codes_per_handler {L : PyLib}
    (e : env) (event : pyval) (w w' : world) (r : response) :
  (Create.lambda_handler e event w = (Ok r, w') ->
   statusCode r ∈ [201; 400; 500]) /\
  (ListNotes.lambda_handler e event w = (Ok r, w') ->
   statusCode r ∈ [200; 500]) /\
  (Update.lambda_handler e event w = (Ok r, w') ->
   statusCode r ∈ [200; 400; 404; 500]) /\
  (Delete.lambda_handler e event w = (Ok r, w') ->
   statusCode r ∈ [200; 400; 404; 500]).
Proof.
  unfold Create.lambda_handler, ListNotes.lambda_handler,
    Update.lambda_handler, Delete.lambda_handler.
  repeat split; intros Hrun; repeat case_match; simplify_eq; simpl;
    set_solver.
Qed.

Lemma status_codes_per_handler_witness :
  statusCode (_response 404 (error_body "Note not found"))
    ∈ [200; 400; 404; 500].
Proof.
  destruct (status_codes_per_handler Sample.env_ok Sample.ev_put_n2
              Sample.w_one
              (log (DeleteItem (OWNER, _get_note_id Sample.ev_put_n2))
                 Sample.w_one)
              (_response 404 (error_body "Note not found")))
    as (_ & _ & _ & Hdelete).
  apply Hdelete.
  apply (delete_absent (L:=Sample.lib) Sample.env_ok Sample.ev_put_n2
           Sample.w_one (proj1 sample_configured) eq_refl).
  - vm_compute. discriminate.
  - vm_compute. reflexivity.
Defined.

(** ** Exceptions that end a run *)

(** X17: where an exception that ends a run of Create or Delete comes from.
    Create ends with an exception either while the body is read and decoded
    (the exception is no [ValueError], no table request has been made and the
    world is the one the handler was given), or at its one put request, with
    what the table client raised, which is no [ClientError].  Delete ends
    with an exception only at its one delete request, with what the table
    client raised, which is no [ClientError]. *)
Theorem uncaught_exception_origin {L : PyLib}
    (e : env) (event : pyval) (w w' : world) (x : exn) :
  (Create.lambda_handler e event w = (Raise x, w') ->
   (w' = w /\ request_fields event = Raise x /\ as_ValueError x = None) \/
   (fault e = Some x /\ (forall code, x <> ClientError code) /\
    exists title note,
      request_fields event = Ok (title, note) /\
      w' = log (PutItem (Create.new_item (uuid4 e) title note (utcnow e))) w)) /\
  (Delete.lambda_handler e event w = (Raise x, w') ->
   fault e = Some x /\ (forall code, x <> ClientError code) /\
   _get_note_id event <> EmptyString /\
   w' = log (DeleteItem (OWNER, _get_note_id event)) w).
Proof.
  split.
  - unfold Create.lambda_handler, _require_env.
    destruct (is_empty (TABLE_NAME e)); [simpl; intros; simplify_eq|].
    destruct (request_fields event) as [[title note]|y].
    + rewrite put_new_item. simpl. intros Hrun. right.
      destruct (fault e) as [y|].
      * destruct y; simplify_eq;
          (split; [reflexivity|]; split; [discriminate|]; eauto).
      * repeat case_match; simplify_eq.
    + destruct (as_ValueError y) eqn:Hy; intros Hrun; simplify_eq. auto.
  - unfold Delete.lambda_handler, _require_env.
    destruct (is_empty (TABLE_NAME e)); [simpl; intros; simplify_eq|].
    destruct (is_empty (_get_note_id event)) eqn:Hid; [intros; simplify_eq|].
    apply is_empty_false in Hid.
    unfold delete_item. intros Hrun.
    destruct (fault e) as [y|].
    + destruct y; repeat case_match; simplify_eq;
        (split; [reflexivity|]; split; [discriminate|]; auto).
    + repeat case_match; simplify_eq.
Qed.

Lemma uncaught_exception_origin_witness :
  Delete.lambda_handler Sample.env_unreachable Sample.ev_padded_n1 Sample.w_one =
  (Raise (OtherError "EndpointConnectionError"),
   log (DeleteItem (OWNER, "n1")) Sample.w_one) /\
  fault Sample.env_unreachable = Some (OtherError "EndpointConnectionError").
Proof.
  assert (Hrun : Delete.lambda_handler Sample.env_unreachable
                   Sample.ev_padded_n1 Sample.w_one =
                 (Raise (OtherError "EndpointConnectionError"),
                  log (DeleteItem (OWNER, "n1")) Sample.w_one))
    by (vm_compute; reflexivity).
  split; [exact Hrun|].
  destruct (uncaught_exception_origin Sample.env_unreachable
              Sample.ev_padded_n1 Sample.w_one
              (log (DeleteItem (OWNER, "n1")) Sample.w_one)
              (OtherError "EndpointConnectionError"))
    as (_ & Hdelete).
  destruct (Hdelete Hrun) as (Hfault & _). exact Hfault.
Defined.
